(** * Compute pollsters (ceilometer/compute/pollsters.py)

    A shallow embedding of the compute pollsters: the metadata helpers,
    the four pollsters (instance presence, disk I/O, CPU, network) and the
    CPU utilisation tracker, followed by the properties of the written
    specification that the code satisfies.

    Conventions of the embedding.
    - Python ints are [Z]; Python floats are the binary64 numbers of
      [PrimFloat]; the exceptions raised by the arithmetic are explicit.
    - Dictionaries are [gmap]s.  [instance.metadata.items()] is the list
      of pairs in the iteration order of the dictionary.
    - Everything the module reads from outside (the inspector, the wall
      clock) is an oracle over the trace of the external calls made so far,
      so that two calls may answer differently.
    - A generator is run to exhaustion: it produces the list of counters it
      yielded, a final outcome (normal end or the exception that escaped)
      and the new state.
    - The [LOG] calls do not influence values or control flow and are left
      out. *)

From Stdlib Require Import ZArith Floats Ascii String.
From stdpp Require Import gmap strings list.

Open Scope Z_scope.

(** ** Python values and exceptions *)

(** The subclasses of [Exception] that can occur. *)
Inductive exn :=
| ZeroDivisionError
| OverflowError
| TypeError
| InspectorError (msg : string).

Inductive result (A : Type) :=
| Ok (a : A)
| Raise (e : exn).
Arguments Ok {A} a.
Arguments Raise {A} e.

(** Scalars found in instance attributes and metadata. *)
Inductive atom :=
| AStr (s : string)
| AInt (z : Z).

Module Str.

(** [s[n:]] *)
Fixpoint drop (n : nat) (s : string) : string :=
  match n, s with
  | O, _ => s
  | S _, EmptyString => EmptyString
  | S n', String _ s' => drop n' s'
  end.

(** [s[:n]] for [n >= 0] *)
Fixpoint take (n : nat) (s : string) : string :=
  match n, s with
  | O, _ => EmptyString
  | S _, EmptyString => EmptyString
  | S n', String c s' => String c (take n' s')
  end.

(** [s.replace(a, b)] for one-character [a] and [b] *)
Fixpoint replace (a b : Ascii.ascii) (s : string) : string :=
  match s with
  | EmptyString => EmptyString
  | String c s' => String (if Ascii.eqb c a then b else c) (replace a b s')
  end.

(** [s.startswith(p)] *)
Definition startswith (s p : string) : bool := String.prefix p s.

(** [s[:limit]] with Python's treatment of a negative bound *)
Definition slice_to (limit : Z) (s : string) : string :=
  let len := Z.of_nat (String.length s) in
  let stop := if limit <? 0 then Z.max 0 (len + limit) else limit in
  take (Z.to_nat stop) s.

(** [str(x)] / ["%s" % x] for an optional string *)
Definition of_option (o : option string) : string :=
  match o with
  | Some s => s
  | None => "None"
  end.

End Str.

(** ** Configuration *)

Record Config := {
  reserved_metadata_namespace : list string;
  reserved_metadata_length : Z
}.

Definition default_CONF : Config :=
  {| reserved_metadata_namespace := ["metering."];
     reserved_metadata_length := 256 |}.

Definition INSTANCE_PROPERTIES : list string :=
  [ "reservation_id";
    "architecture";
    "OS-EXT-AZ:availability_zone";
    "kernel_id";
    "os_type";
    "ramdisk_id";
    "disk_gb";
    "ephemeral_gb";
    "memory_mb";
    "root_gb";
    "vcpus" ].

(** ** Instances *)

Record Flavor := {
  flavor_id : string;
  flavor_name : string
}.

Record Image := {
  image_id : string;
  image_links : list string      (* the [href] of each entry of ['links'] *)
}.

Record Instance := {
  i_id : string;
  i_name : string;
  i_user_id : string;
  i_tenant_id : string;
  i_hostId : string;
  i_flavor : option Flavor;
  i_image : option Image;
  i_metadata : list (string * atom);      (* [instance.metadata.items()] *)
  i_instance_name : option string;        (* ['OS-EXT-SRV-ATTR:instance_name'] *)
  i_props : gmap string atom              (* attributes read with [getattr] *)
}.

(** Values of a [resource_metadata] dictionary. *)
Inductive mvalue :=
| MNone
| MAtom (a : atom)
| MFlavor (f : Flavor)
| MImage (i : Image)
| MUser (d : gmap string atom).

Definition mstr (s : string) : mvalue := MAtom (AStr s).

Definition opt_mvalue {A} (f : A → mvalue) (o : option A) : mvalue :=
  match o with
  | Some a => f a
  | None => MNone
  end.

(** [dict(pairs)]: a later pair replaces an earlier one with the same key. *)
Definition py_dict {V} (pairs : list (string * V)) : gmap string V :=
  foldl (λ d kv, <[kv.1 := kv.2]> d) ∅ pairs.

(** [d.update(md)] *)
Definition py_update {V} (d md : gmap string V) : gmap string V := md ∪ d.

Section Metadata.

Variable CONF : Config.

(** [k[len(prefix):].replace('.', '_')] *)
Definition reserved_name (prefix k : string) : string :=
  Str.replace "."%char "_"%char (Str.drop (String.length prefix) k).

(** [v[:limit] if isinstance(v, basestring) else v] *)
Definition reserved_value (limit : Z) (v : atom) : atom :=
  match v with
  | AStr s => AStr (Str.slice_to limit s)
  | AInt z => AInt z
  end.

(** The condition of the generator expression. *)
Definition reserved_selected (prefix : string) (metadata : gmap string mvalue)
    (kv : string * atom) : bool :=
  Str.startswith kv.1 prefix
  && negb (bool_decide (reserved_name prefix kv.1 ∈ dom metadata)).

(** The dictionary [md] built for one prefix. *)
Definition reserved_md (limit : Z) (prefix : string)
    (items : list (string * atom)) (metadata : gmap string mvalue)
    : gmap string atom :=
  py_dict
    ((λ kv, (reserved_name prefix kv.1, reserved_value limit kv.2))
       <$> filter (λ kv, Is_true (reserved_selected prefix metadata kv)) items).

Definition _add_reserved_user_metadata (instance : Instance)
    (metadata : gmap string mvalue) : gmap string mvalue :=
  let limit := reserved_metadata_length CONF in
  let user_metadata :=
    foldl (λ um prefix,
             py_update um (reserved_md limit prefix (i_metadata instance) metadata))
          ∅ (reserved_metadata_namespace CONF) in
  if decide (user_metadata = ∅) then metadata
  else <["user_metadata" := MUser user_metadata]> metadata.

(** The dictionary built by [_get_metadata_from_object] before the
    reserved user metadata are added. *)
Definition base_metadata (instance : Instance) : gmap string mvalue :=
  let metadata : gmap string mvalue :=
    py_dict
      [ ("display_name", mstr (i_name instance));
        ("name", mstr (default "" (i_instance_name instance)));
        ("instance_type",
           opt_mvalue (λ f, mstr (flavor_id f)) (i_flavor instance));
        ("host", mstr (i_hostId instance));
        ("flavor", opt_mvalue MFlavor (i_flavor instance));
        ("image", opt_mvalue MImage (i_image instance));
        ("image_ref",
           opt_mvalue (λ im, mstr (image_id im)) (i_image instance)) ] in
  let metadata :=
    <["image_ref_url" :=
        match i_image instance with
        | Some im =>
            match image_links im with
            | href :: _ => mstr href
            | [] => MNone
            end
        | None => MNone
        end]> metadata in
  foldl (λ md name,
           <[name := MAtom (default (AStr "") (i_props instance !! name))]> md)
        metadata INSTANCE_PROPERTIES.

Definition _get_metadata_from_object (instance : Instance)
    : gmap string mvalue :=
  _add_reserved_user_metadata instance (base_metadata instance).

Definition _instance_name (instance : Instance) : option string :=
  i_instance_name instance.

End Metadata.

(** ** Counters *)

Inductive counter_type :=
| TYPE_GAUGE
| TYPE_DELTA
| TYPE_CUMULATIVE.

Inductive volume :=
| VInt (z : Z)
| VFloat (f : float).

Record Counter := {
  c_name : string;
  c_type : counter_type;
  c_unit : string;
  c_volume : volume;
  c_user_id : string;
  c_project_id : string;
  c_resource_id : string;
  c_timestamp : string;
  c_resource_metadata : gmap string mvalue
}.

(** ** The inspector and the clock *)

Record CPUStats := {
  cpu_number : Z;
  cpu_time : Z
}.

Record Disk := {
  device : string
}.

Record DiskStats := {
  read_requests : Z;
  read_bytes : Z;
  write_requests : Z;
  write_bytes : Z;
  errors : Z
}.

(** Modelled from the spec: the vNIC descriptor is declared by the
    inspector, outside this module.  It has a name and an optional stable
    reference; its other fields are kept, in order, as named values. *)
Record Interface := {
  vnic_name : string;
  vnic_fref : option string;
  vnic_attrs : list (string * mvalue)
}.

Record InterfaceStats := {
  rx_bytes : Z;
  rx_packets : Z;
  tx_bytes : Z;
  tx_packets : Z
}.

(** A sequence returned by the inspector and consumed by a [for] loop: the
    items it produces and, possibly, the exception that ends it.  A call
    that raises at once produces nothing. *)
Record lazy_seq (A : Type) := {
  produced : list A;
  failure : option exn
}.
Arguments produced {A} _.
Arguments failure {A} _.

(** Calls that leave the module, newest first in a trace. *)
Inductive event :=
| CallInspectCpus (instance_name : option string)
| CallInspectDisks (instance_name : option string)
| CallInspectVnics (instance_name : option string)
| ReadNow
| ReadIsotime.

Global Instance event_eq_dec : EqDecision event.
Proof. solve_decision. Defined.

(** A [datetime] is a number of microseconds on the local time line. *)
Abbreviation datetime := Z (only parsing).

Record Externals := {
  inspect_cpus : list event → option string → result CPUStats;
  inspect_disks : list event → option string → lazy_seq (Disk * DiskStats);
  inspect_vnics :
    list event → option string → lazy_seq (Interface * InterfaceStats);
  datetime_now : list event → datetime;
  isotime : list event → string
}.

Record timedelta := {
  days : Z;
  seconds : Z;
  microseconds : Z
}.

(** [a - b] on datetimes: the normalised difference. *)
Definition datetime_sub (a b : datetime) : timedelta :=
  let d := a - b in
  {| days := d / 86400000000;
     seconds := (d mod 86400000000) / 1000000;
     microseconds := d mod 1000000 |}.

(** ** State and generators *)

Record DiskIOData := {
  r_bytes : Z;
  r_requests : Z;
  w_bytes : Z;
  w_requests : Z
}.

Record World := {
  trace : list event;
  cache : gmap string (gmap (option string) DiskIOData);
  utilization_map : gmap string (Z * datetime)
}.

Definition set_trace (t : list event) (w : World) : World :=
  {| trace := t; cache := cache w; utilization_map := utilization_map w |}.

Definition set_cache (c : gmap string (gmap (option string) DiskIOData))
    (w : World) : World :=
  {| trace := trace w; cache := c; utilization_map := utilization_map w |}.

Definition set_utilization_map (m : gmap string (Z * datetime)) (w : World)
    : World :=
  {| trace := trace w; cache := cache w; utilization_map := m |}.

Record outcome (A : Type) := {
  yielded : list Counter;
  final : result A;
  world : World
}.
Arguments yielded {A} _.
Arguments final {A} _.
Arguments world {A} _.

Definition M (A : Type) : Type := World → outcome A.

Global Instance M_ret : MRet M :=
  λ A a w, {| yielded := []; final := Ok a; world := w |}.

Global Instance M_bind : MBind M :=
  λ A B f m w,
    match m w with
    | {| yielded := ys; final := Ok a; world := w1 |} =>
        match f a w1 with
        | {| yielded := ys'; final := r; world := w2 |} =>
            {| yielded := ys ++ ys'; final := r; world := w2 |}
        end
    | {| yielded := ys; final := Raise e; world := w1 |} =>
        {| yielded := ys; final := Raise e; world := w1 |}
    end.

Definition raise {A} (e : exn) : M A :=
  λ w, {| yielded := []; final := Raise e; world := w |}.

Definition lift {A} (r : result A) : M A :=
  match r with
  | Ok a => mret a
  | Raise e => raise e
  end.

Definition yield (c : Counter) : M unit :=
  λ w, {| yielded := [c]; final := Ok tt; world := w |}.

(** [try: body except Exception as err: handler] *)
Definition try_except (body : M unit) (handler : exn → M unit) : M unit :=
  λ w,
    match body w with
    | {| yielded := ys; final := Ok a; world := w1 |} =>
        {| yielded := ys; final := Ok a; world := w1 |}
    | {| yielded := ys; final := Raise e; world := w1 |} =>
        match handler e w1 with
        | {| yielded := ys'; final := r; world := w2 |} =>
            {| yielded := ys ++ ys'; final := r; world := w2 |}
        end
    end.

Definition gets {A} (f : World → A) : M A :=
  λ w, {| yielded := []; final := Ok (f w); world := w |}.

Definition modify (f : World → World) : M unit :=
  λ w, {| yielded := []; final := Ok tt; world := f w |}.

(** A call that leaves the module: answered from the trace so far, then
    recorded. *)
Definition external {A} (e : event) (answer : list event → A) : M A :=
  λ w, {| yielded := [];
          final := Ok (answer (trace w));
          world := set_trace (e :: trace w) w |}.

Fixpoint for_each {A} (items : list A) (body : A → M unit) : M unit :=
  match items with
  | [] => mret tt
  | x :: rest => body x ;; for_each rest body
  end.

(** [for x in s: body] over an inspector sequence. *)
Definition for_lazy {A} (s : lazy_seq A) (body : A → M unit) : M unit :=
  for_each (produced s) body ;;
  match failure s with
  | Some e => raise e
  | None => mret tt
  end.

(** ** Float arithmetic of Python *)

(** [float(z)], rounding to nearest even. *)
Definition float_of_Z (z : Z) : float :=
  SF2Prim (binary_normalize prec emax z 0 false).

Definition py_float (z : Z) : result float :=
  let f := float_of_Z z in
  if PrimFloat.is_infinity f then Raise OverflowError else Ok f.

(** [x * z] for a float [x] and an int [z] *)
Definition py_float_mul_int (x : float) (z : Z) : result float :=
  match py_float z with
  | Ok f => Ok (PrimFloat.mul x f)
  | Raise e => Raise e
  end.

(** [x / z] for a float [x] and an int [z] *)
Definition py_float_div_int (x : float) (z : Z) : result float :=
  match py_float z with
  | Ok f => if z =? 0 then Raise ZeroDivisionError else Ok (PrimFloat.div x f)
  | Raise e => Raise e
  end.

(** ** The pollsters *)

Section Pollsters.

Variable CONF : Config.
Variable ext : Externals.

Definition timeutils_isotime : M string :=
  external ReadIsotime (isotime ext).

Definition datetime_datetime_now : M datetime :=
  external ReadNow (datetime_now ext).

Definition make_counter_from_instance (instance : Instance) (name : string)
    (type : counter_type) (unit : string) (vol : volume) : M Counter :=
  timestamp ← timeutils_isotime;
  mret {| c_name := name;
          c_type := type;
          c_unit := unit;
          c_volume := vol;
          c_user_id := i_user_id instance;
          c_project_id := i_tenant_id instance;
          c_resource_id := i_id instance;
          c_timestamp := timestamp;
          c_resource_metadata := _get_metadata_from_object CONF instance |}.

(** *** InstancePollster *)

Definition InstancePollster_get_counters (instance : Instance) : M unit :=
  c ← make_counter_from_instance instance "instance" TYPE_GAUGE "instance"
        (VInt 1);
  yield c ;;
  (* [instance.flavor['name']] fails on [None] *)
  name ← match i_flavor instance with
         | Some f => mret (String.append "instance:" (flavor_name f))
         | None => raise TypeError
         end;
  c ← make_counter_from_instance instance name TYPE_GAUGE "instance" (VInt 1);
  yield c.

(** *** DiskIOPollster *)

Definition CACHE_KEY_DISK : string := "diskio".

(** One turn of the summing loop. *)
Definition add_disk (acc : DiskIOData) (item : Disk * DiskStats) : DiskIOData :=
  let info := item.2 in
  {| r_bytes := r_bytes acc + read_bytes info;
     r_requests := r_requests acc + read_requests info;
     w_bytes := w_bytes acc + write_bytes info;
     w_requests := w_requests acc + write_requests info |}.

Definition DiskIOData_zero : DiskIOData :=
  {| r_bytes := 0; r_requests := 0; w_bytes := 0; w_requests := 0 |}.

(** [cache.setdefault(key, {})]: the dictionary returned is the one stored
    in the cache. *)
Definition cache_setdefault (key : string)
    : M (gmap (option string) DiskIOData) :=
  c ← gets cache;
  match c !! key with
  | Some i_cache => mret i_cache
  | None => modify (set_cache (<[key := ∅]> c)) ;; mret ∅
  end.

Definition _populate_cache (instance : Instance)
    (instance_name : option string) : M DiskIOData :=
  i_cache ← cache_setdefault CACHE_KEY_DISK;
  match i_cache !! instance_name with
  | Some data => mret data
  | None =>
      disks ← external (CallInspectDisks instance_name)
                (λ tr, inspect_disks ext tr instance_name);
      let sums := foldl add_disk DiskIOData_zero (produced disks) in
      match failure disks with
      | Some e => raise e
      | None =>
          (* [i_cache] is the dictionary held by the cache *)
          modify (λ w, set_cache
                         (<[CACHE_KEY_DISK := <[instance_name := sums]> i_cache]>
                            (cache w)) w) ;;
          mret sums
      end
  end.

Definition DiskIOPollster_get_counters (instance : Instance) : M unit :=
  let instance_name := _instance_name instance in
  c_data ← _populate_cache instance instance_name;
  try_except
    (c ← make_counter_from_instance instance "disk.read.requests"
           TYPE_CUMULATIVE "request" (VInt (r_requests c_data));
     yield c ;;
     c ← make_counter_from_instance instance "disk.read.bytes"
           TYPE_CUMULATIVE "B" (VInt (r_bytes c_data));
     yield c ;;
     c ← make_counter_from_instance instance "disk.write.requests"
           TYPE_CUMULATIVE "request" (VInt (w_requests c_data));
     yield c ;;
     c ← make_counter_from_instance instance "disk.write.bytes"
           TYPE_CUMULATIVE "B" (VInt (w_bytes c_data));
     yield c)
    (λ err, mret tt).

(** *** CPUPollster *)

(** [(delta.seconds * (10 ** 6) + delta.microseconds) * 1000] *)
Definition elapsed_of (delta : timedelta) : Z :=
  (seconds delta * (10 ^ 6) + microseconds delta) * 1000.

(** [cpu_info.time - prev_cpu if prev_cpu <= cpu_info.time else cpu_info.time] *)
Definition time_used_of (prev_cpu : Z) (cpu_info : CPUStats) : Z :=
  if prev_cpu <=? cpu_time cpu_info then cpu_time cpu_info - prev_cpu
  else cpu_time cpu_info.

Definition get_cpu_util (instance : Instance) (cpu_info : CPUStats) : M float :=
  prev_times ← gets (λ w, utilization_map w !! i_id instance);
  now ← datetime_datetime_now;
  modify (λ w, set_utilization_map
                 (<[i_id instance := (cpu_time cpu_info, now)]>
                    (utilization_map w)) w) ;;
  match prev_times with
  | Some (prev_cpu, prev_timestamp) =>
      let delta := datetime_sub now prev_timestamp in
      let elapsed := elapsed_of delta in
      cores_fraction ← lift (py_float_div_int 1%float (cpu_number cpu_info));
      let time_used := time_used_of prev_cpu cpu_info in
      x ← lift (py_float_mul_int (PrimFloat.mul 100%float cores_fraction)
                  time_used);
      lift (py_float_div_int x elapsed)
  | None => mret 0%float
  end.

Definition CPUPollster_get_counters (instance : Instance) : M unit :=
  let instance_name := _instance_name instance in
  try_except
    (r ← external (CallInspectCpus instance_name)
           (λ tr, inspect_cpus ext tr instance_name);
     cpu_info ← lift r;
     cpu_util ← get_cpu_util instance cpu_info;
     c ← make_counter_from_instance instance "cpu_util" TYPE_GAUGE "%"
           (VFloat cpu_util);
     yield c ;;
     c ← make_counter_from_instance instance "cpu" TYPE_CUMULATIVE "ns"
           (VInt (cpu_time cpu_info));
     yield c)
    (λ err, mret tt).

(** *** NetPollster *)

(** The resource id of the counters of one vNIC. *)
Definition vnic_rid (instance : Instance) (vnic_data : Interface) : string :=
  match vnic_fref vnic_data with
  | Some fref => fref
  | None =>
      let instance_name := _instance_name instance in
      String.append (Str.of_option instance_name)
        (String.append "-"
           (String.append (i_id instance)
              (String.append "-" (vnic_name vnic_data))))
  end.

(** [dict(zip(metadata._fields, metadata))] *)
Definition vnic_fields (vnic_data : Interface) : list (string * mvalue) :=
  ("name", mstr (vnic_name vnic_data))
  :: ("fref", opt_mvalue mstr (vnic_fref vnic_data))
  :: vnic_attrs vnic_data.

Definition make_vnic_counter (instance : Instance) (name : string)
    (type : counter_type) (unit : string) (vol : volume)
    (vnic_data : Interface) : M Counter :=
  let resource_metadata := py_dict (vnic_fields vnic_data) in
  let resource_metadata :=
    <["instance_id" := mstr (i_id instance)]> resource_metadata in
  let resource_metadata :=
    <["instance_type" :=
        opt_mvalue (λ f, mstr (flavor_id f)) (i_flavor instance)]>
      resource_metadata in
  let rid := vnic_rid instance vnic_data in
  timestamp ← timeutils_isotime;
  mret {| c_name := name;
          c_type := type;
          c_unit := unit;
          c_volume := vol;
          c_user_id := i_user_id instance;
          c_project_id := i_tenant_id instance;
          c_resource_id := rid;
          c_timestamp := timestamp;
          c_resource_metadata := resource_metadata |}.

(** The body of the loop over the vNICs. *)
Definition vnic_counters (instance : Instance)
    (item : Interface * InterfaceStats) : M unit :=
  let vnic := item.1 in
  let info := item.2 in
  c ← make_vnic_counter instance "network.incoming.bytes" TYPE_CUMULATIVE
        "B" (VInt (rx_bytes info)) vnic;
  yield c ;;
  c ← make_vnic_counter instance "network.outgoing.bytes" TYPE_CUMULATIVE
        "B" (VInt (tx_bytes info)) vnic;
  yield c ;;
  c ← make_vnic_counter instance "network.incoming.packets" TYPE_CUMULATIVE
        "packet" (VInt (rx_packets info)) vnic;
  yield c ;;
  c ← make_vnic_counter instance "network.outgoing.packets" TYPE_CUMULATIVE
        "packet" (VInt (tx_packets info)) vnic;
  yield c.

Definition NetPollster_get_counters (instance : Instance) : M unit :=
  let instance_name := _instance_name instance in
  try_except
    (vnics ← external (CallInspectVnics instance_name)
               (λ tr, inspect_vnics ext tr instance_name);
     for_lazy vnics (vnic_counters instance))
    (λ err, mret tt).

End Pollsters.

Arguments _populate_cache ext instance instance_name : clear implicits.

(** ** Drivers *)

(** Modelled from the spec: the Cycle Orchestrator, which is outside this
    module, iterates the instances, invokes the producer's collection for
    each of them and forwards the samples.  An exception that escapes a
    collection ends the pass. *)
Fixpoint poll_instances (get_counters : Instance → M unit)
    (instances : list Instance) : M unit :=
  match instances with
  | [] => mret tt
  | instance :: rest =>
      get_counters instance ;; poll_instances get_counters rest
  end.

(** Several consumers, one after the other, each running one collection to
    exhaustion and keeping whatever it produced or raised; they share the
    state, hence the cycle cache. *)
Fixpoint consume_each (get_counters : Instance → M unit)
    (instances : list Instance) (w : World) : list (outcome unit) * World :=
  match instances with
  | [] => ([], w)
  | instance :: rest =>
      let o := get_counters instance w in
      let r := consume_each get_counters rest (world o) in
      (o :: r.1, r.2)
  end.

(** The number of calls of [inspect_disks] for one instance name recorded
    in a trace. *)
Definition disk_calls (instance_name : option string) (tr : list event) : nat :=
  length (filter (λ e, e = CallInspectDisks instance_name) tr).

(** The utilisation formula in the words of the specification,
    [100 * (1 / core_count) * time_used / elapsed], in Python arithmetic. *)
Definition utilization_percent (core_count time_used elapsed : Z)
    : result float :=
  match py_float_div_int 1%float core_count with
  | Ok fraction =>
      match py_float_mul_int (PrimFloat.mul 100%float fraction) time_used with
      | Ok x => py_float_div_int x elapsed
      | Raise e => Raise e
      end
  | Raise e => Raise e
  end.

(** ** Running the generators *)

Ltac run :=
  repeat (progress (unfold mbind, mret, M_bind, M_ret, lift, raise, yield,
                      try_except, gets, modify, external,
                      timeutils_isotime, datetime_datetime_now,
                      make_counter_from_instance;
                    cbn [final world yielded app trace cache utilization_map
                         set_trace set_cache set_utilization_map])).

(** The utilisation that [get_cpu_util] returns, from the previous entry of
    the tracker and the reading of the clock. *)
Definition cpu_util_of (prev_times : option (Z * datetime)) (now : datetime)
    (cpu_info : CPUStats) : result float :=
  match prev_times with
  | Some (prev_cpu, prev_timestamp) =>
      utilization_percent (cpu_number cpu_info)
        (time_used_of prev_cpu cpu_info)
        (elapsed_of (datetime_sub now prev_timestamp))
  | None => Ok 0%float
  end.


(** The counter built by [make_counter_from_instance] when the clock reads
    [timestamp]. *)
Definition instance_counter (CONF : Config) (instance : Instance)
    (name : string) (type : counter_type) (unit : string) (vol : volume)
    (timestamp : string) : Counter :=
  {| c_name := name;
     c_type := type;
     c_unit := unit;
     c_volume := vol;
     c_user_id := i_user_id instance;
     c_project_id := i_tenant_id instance;
     c_resource_id := i_id instance;
     c_timestamp := timestamp;
     c_resource_metadata := _get_metadata_from_object CONF instance |}.

Definition name_volume (c : Counter) : string * volume :=
  (c_name c, c_volume c).

(** The outcome of [CPUPollster.get_counters] once the inspector has
    answered [r] and the clock has been read. *)
Definition cpu_outcome (CONF : Config) (ext : Externals) (instance : Instance)
    (w : World) (r : result CPUStats) : outcome unit :=
  let tr := CallInspectCpus (_instance_name instance) :: trace w in
  match r with
  | Raise _ =>
      {| yielded := []; final := Ok tt; world := set_trace tr w |}
  | Ok cpu_info =>
      let now := datetime_now ext tr in
      let m := <[i_id instance := (cpu_time cpu_info, now)]> (utilization_map w) in
      match cpu_util_of (utilization_map w !! i_id instance) now cpu_info with
      | Raise _ =>
          {| yielded := [];
             final := Ok tt;
             world := {| trace := ReadNow :: tr;
                         cache := cache w;
                         utilization_map := m |} |}
      | Ok cpu_util =>
          {| yielded :=
               [ instance_counter CONF instance "cpu_util" TYPE_GAUGE "%"
                   (VFloat cpu_util) (isotime ext (ReadNow :: tr));
                 instance_counter CONF instance "cpu" TYPE_CUMULATIVE "ns"
                   (VInt (cpu_time cpu_info))
                   (isotime ext (ReadIsotime :: ReadNow :: tr)) ];
             final := Ok tt;
             world := {| trace := ReadIsotime :: ReadIsotime :: ReadNow :: tr;
                         cache := cache w;
                         utilization_map := m |} |}
      end
  end.

(** The aggregate that the cycle cache holds for an instance name. *)
Definition cached (instance_name : option string) (w : World)
    : option DiskIOData :=
  cache w !! CACHE_KEY_DISK ≫= (λ i_cache, i_cache !! instance_name).

(** The volumes of the four disk counters, in the order they are yielded. *)
Definition disk_volumes (d : DiskIOData) : list volume :=
  [ VInt (r_requests d); VInt (r_bytes d);
    VInt (w_requests d); VInt (w_bytes d) ].

(** The four counters that [DiskIOPollster.get_counters] yields from the
    aggregate [d] when it starts reading the clock at trace [tr]. *)
Definition disk_counters (CONF : Config) (ext : Externals)
    (instance : Instance) (d : DiskIOData) (tr : list event) : list Counter :=
  [ instance_counter CONF instance "disk.read.requests" TYPE_CUMULATIVE
      "request" (VInt (r_requests d)) (isotime ext tr);
    instance_counter CONF instance "disk.read.bytes" TYPE_CUMULATIVE
      "B" (VInt (r_bytes d)) (isotime ext (ReadIsotime :: tr));
    instance_counter CONF instance "disk.write.requests" TYPE_CUMULATIVE
      "request" (VInt (w_requests d))
      (isotime ext (ReadIsotime :: ReadIsotime :: tr));
    instance_counter CONF instance "disk.write.bytes" TYPE_CUMULATIVE
      "B" (VInt (w_bytes d))
      (isotime ext (ReadIsotime :: ReadIsotime :: ReadIsotime :: tr)) ].

(** The outcome of [DiskIOPollster.get_counters] from the outcome of
    [_populate_cache]. *)
Definition disk_outcome (CONF : Config) (ext : Externals)
    (instance : Instance) (o : outcome DiskIOData) : outcome unit :=
  match final o with
  | Ok d =>
      {| yielded := disk_counters CONF ext instance d (trace (world o));
         final := Ok tt;
         world :=
           set_trace
             (ReadIsotime :: ReadIsotime :: ReadIsotime :: ReadIsotime
                :: trace (world o)) (world o) |}
  | Raise e => {| yielded := []; final := Raise e; world := world o |}
  end.

(** The counter built by [make_vnic_counter] when the clock reads
    [timestamp]. *)
Definition vnic_counter (instance : Instance) (name : string)
    (type : counter_type) (unit : string) (vol : volume)
    (vnic_data : Interface) (timestamp : string) : Counter :=
  {| c_name := name;
     c_type := type;
     c_unit := unit;
     c_volume := vol;
     c_user_id := i_user_id instance;
     c_project_id := i_tenant_id instance;
     c_resource_id := vnic_rid instance vnic_data;
     c_timestamp := timestamp;
     c_resource_metadata :=
       <["instance_type" :=
           opt_mvalue (λ f, mstr (flavor_id f)) (i_flavor instance)]>
         (<["instance_id" := mstr (i_id instance)]>
            (py_dict (vnic_fields vnic_data))) |}.

(** The four counters of one vNIC, the clock being first read at [tr]. *)
Definition vnic_counters_at (ext : Externals) (instance : Instance)
    (item : Interface * InterfaceStats) (tr : list event) : list Counter :=
  [ vnic_counter instance "network.incoming.bytes" TYPE_CUMULATIVE "B"
      (VInt (rx_bytes item.2)) item.1 (isotime ext tr);
    vnic_counter instance "network.outgoing.bytes" TYPE_CUMULATIVE "B"
      (VInt (tx_bytes item.2)) item.1 (isotime ext (ReadIsotime :: tr));
    vnic_counter instance "network.incoming.packets" TYPE_CUMULATIVE "packet"
      (VInt (rx_packets item.2)) item.1
      (isotime ext (ReadIsotime :: ReadIsotime :: tr));
    vnic_counter instance "network.outgoing.packets" TYPE_CUMULATIVE "packet"
      (VInt (tx_packets item.2)) item.1
      (isotime ext (ReadIsotime :: ReadIsotime :: ReadIsotime :: tr)) ].

Definition four_isotime (tr : list event) : list event :=
  ReadIsotime :: ReadIsotime :: ReadIsotime :: ReadIsotime :: tr.

(** The counters of a list of vNICs and the trace after them. *)
Fixpoint net_counters (ext : Externals) (instance : Instance)
    (items : list (Interface * InterfaceStats)) (tr : list event)
    : list Counter :=
  match items with
  | [] => []
  | item :: rest =>
      vnic_counters_at ext instance item tr
      ++ net_counters ext instance rest (four_isotime tr)
  end.

Fixpoint net_trace (items : list (Interface * InterfaceStats))
    (tr : list event) : list event :=
  match items with
  | [] => tr
  | _ :: rest => net_trace rest (four_isotime tr)
  end.

Definition NET_COUNTER_NAMES : list string :=
  [ "network.incoming.bytes"; "network.outgoing.bytes";
    "network.incoming.packets"; "network.outgoing.packets" ].

Definition vnic_volumes (item : Interface * InterfaceStats) : list volume :=
  [ VInt (rx_bytes item.2); VInt (tx_bytes item.2);
    VInt (rx_packets item.2); VInt (tx_packets item.2) ].

(** The dictionary [user_metadata] at the end of the loop of
    [_add_reserved_user_metadata]. *)
Definition user_metadata_of (CONF : Config) (instance : Instance)
    (metadata : gmap string mvalue) : gmap string atom :=
  foldl (λ um prefix,
           py_update um
             (reserved_md (reserved_metadata_length CONF) prefix
                (i_metadata instance) metadata))
        ∅ (reserved_metadata_namespace CONF).

(** ** Declared counter names *)

Definition InstancePollster_get_counter_names : list string :=
  ["instance"; "instance:*"].

Definition DiskIOPollster_get_counter_names : list string :=
  ["disk.read.requests"; "disk.read.bytes";
   "disk.write.requests"; "disk.write.bytes"].

Definition CPUPollster_get_counter_names : list string :=
  ["cpu"; "cpu_util"].

Definition NetPollster_get_counter_names : list string :=
  ["network.incoming.bytes"; "network.incoming.packets";
   "network.outgoing.bytes"; "network.outgoing.packets"].

(** ** Measures on traces and lists *)

Definition is_inspector_call (e : event) : bool :=
  match e with
  | CallInspectCpus _ | CallInspectDisks _ | CallInspectVnics _ => true
  | ReadNow | ReadIsotime => false
  end.

(** The calls of the inspector recorded in a trace, newest first. *)
Definition inspector_calls (tr : list event) : list event :=
  filter (λ e, Is_true (is_inspector_call e)) tr.

(** The sum of one field over the disks of an enumeration. *)
Definition disk_sum (field : DiskStats → Z) (disks : list (Disk * DiskStats))
    : Z :=
  foldr (λ item acc, field item.2 + acc) 0 disks.

Definition disk_totals (disks : list (Disk * DiskStats)) : DiskIOData :=
  {| r_bytes := disk_sum read_bytes disks;
     r_requests := disk_sum read_requests disks;
     w_bytes := disk_sum write_bytes disks;
     w_requests := disk_sum write_requests disks |}.

(** * The Gnocchi threshold evaluator (aodh/evaluator/gnocchi.py)

    The values of an alarm rule and of the statistics are those of JSON
    documents; their type, Python's [==] on them and their rendering by
    ["%s"] are parameters.  The HTTP library and the JSON decoder are
    functions given from outside, which answer or raise. *)

Module Gnocchi.

Inductive error :=
| KeyError (key : string)
| IndexError
| RequestException
| ValueError.

Inductive res (A : Type) :=
| Val (a : A)
| Exc (e : error).
Arguments Val {A} a.
Arguments Exc {A} e.

Global Instance res_ret : MRet res := λ A a, Val a.

Global Instance res_bind : MBind res :=
  λ A B k r,
    match r with
    | Val a => k a
    | Exc e => Exc e
    end.

Inductive http_method :=
| GET
| POST.

Section Evaluator.

Variable value : Type.
Variable py_eq : value → value → bool.
Variable py_str : value → string.

Record Alarm := {
  alarm_type : string;
  rule : gmap string value
}.

Record Evaluator := {
  gnocchi_url : string;
  auth_token : string
}.

Record Request := {
  url : string;
  headers : gmap string string;
  params : gmap string value;
  data : option value
}.

Record Response := {
  status_code : Z;
  text : string
}.

(** [d[key]] *)
Definition getitem (d : gmap string value) (key : string) : res value :=
  match d !! key with
  | Some v => Val v
  | None => Exc (KeyError key)
  end.

(** [l[i]] for an index that is not negative *)
Definition index (l : list value) (i : nat) : res value :=
  match l !! i with
  | Some v => Val v
  | None => Exc IndexError
  end.

Definition _get_headers (self : Evaluator) (content_type : string)
    : gmap string string :=
  <["X-Auth-Token" := auth_token self]>
    (<["Content-Type" := content_type]> ∅).

(** The method and the keyword arguments of the call of [requests] made by
    [_statistics]. *)
Definition statistics_request (self : Evaluator) (alarm : Alarm)
    (start end_ : value) : res (http_method * Request) :=
  aggregation ← getitem (rule alarm) "aggregation_method";
  let req :=
    {| url := String.append (gnocchi_url self) "/v1";
       headers := _get_headers self "application/json";
       params := <["end" := end_]>
                   (<["start" := start]>
                      (<["aggregation" := aggregation]> ∅));
       data := None |} in
  if String.eqb (alarm_type alarm) "gnocchi_aggregation_by_resources_threshold"
  then
    resource_type ← getitem (rule alarm) "resource_type";
    metric ← getitem (rule alarm) "metric";
    query ← getitem (rule alarm) "query";
    Val (POST,
         {| url := String.append (url req)
                     (String.append "/aggregation/resource/"
                        (String.append (py_str resource_type)
                           (String.append "/metric/" (py_str metric))));
            headers := headers req;
            params := params req;
            data := Some query |})
  else if String.eqb (alarm_type alarm)
            "gnocchi_aggregation_by_metrics_threshold"
  then
    metrics ← getitem (rule alarm) "metrics";
    Val (GET,
         {| url := String.append (url req) "/aggregation/metric";
            headers := headers req;
            params := <["metric[]" := metrics]> (params req);
            data := data req |})
  else if String.eqb (alarm_type alarm) "gnocchi_resources_threshold"
  then
    resource_type ← getitem (rule alarm) "resource_type";
    resource_id ← getitem (rule alarm) "resource_id";
    metric ← getitem (rule alarm) "metric";
    Val (GET,
         {| url := String.append (url req)
                     (String.append "/resource/"
                        (String.append (py_str resource_type)
                           (String.append "/"
                              (String.append (py_str resource_id)
                                 (String.append "/metric/"
                                    (String.append (py_str metric)
                                       "/measures"))))));
            headers := headers req;
            params := params req;
            data := data req |})
  else Val (GET, req).

Variable requests : http_method → Request → res Response.
Variable jsonutils_loads : string → res (list (list value)).

Definition _statistics (self : Evaluator) (alarm : Alarm)
    (start end_ : value) : res (list (list value)) :=
  mr ← statistics_request self alarm start end_;
  match requests mr.1 mr.2 with
  | Exc _ => Val []
  | Val r =>
      (* [int(r.status_code / 100) != 2], [/] being the division of
         Python 2 on ints *)
      if negb (status_code r / 100 =? 2) then Val []
      else jsonutils_loads (text r)
  end.

(** [[stats[2] for stats in statistics
      if stats[1] == alarm.rule['granularity']]] *)
Fixpoint _sanitize (alarm : Alarm) (statistics : list (list value))
    : res (list value) :=
  match statistics with
  | [] => Val []
  | stats :: rest =>
      granularity_here ← index stats 1;
      granularity ← getitem (rule alarm) "granularity";
      if py_eq granularity_here granularity
      then
        datapoint ← index stats 2;
        others ← _sanitize alarm rest;
        Val (datapoint :: others)
      else _sanitize alarm rest
  end.

End Evaluator.

Arguments alarm_type {value} _.
Arguments rule {value} _.
Arguments url {value} _.
Arguments headers {value} _.
Arguments params {value} _.
Arguments data {value} _.

(** A data point as Gnocchi returns it: timestamp, granularity, value. *)
Definition datapoint {value : Type} (p : value * value * value)
    : list value :=
  [p.1.1; p.1.2; p.2].

End Gnocchi.

(** Lookups through a pile of insertions with distinct literal keys. *)
Ltac lookup_inserts :=
  repeat (rewrite lookup_insert_ne by done);
  rewrite ?lookup_insert_eq, ?lookup_empty; done.

(** ** Sample data *)

Definition m1_small : Flavor :=
  {| flavor_id := "2"; flavor_name := "m1.small" |}.

Definition instance_named (id : string) (instance_name : option string)
    (metadata : list (string * atom)) : Instance :=
  {| i_id := id;
     i_name := "vm";
     i_user_id := "user";
     i_tenant_id := "tenant";
     i_hostId := "host";
     i_flavor := Some m1_small;
     i_image := None;
     i_metadata := metadata;
     i_instance_name := instance_name;
     i_props := ∅ |}.

Definition instance_1 : Instance :=
  instance_named "i-1" (Some "instance-00000001") [].

Definition cpu_4_5000 : CPUStats := {| cpu_number := 4; cpu_time := 5000 |}.

Definition cpu_4_100 : CPUStats := {| cpu_number := 4; cpu_time := 100 |}.

(** An inspector that answers every call, with a clock reading [now]. *)
Definition steady_ext (cpu_info : CPUStats) (now : datetime) : Externals :=
  {| inspect_cpus := λ _ _, Ok cpu_info;
     inspect_disks := λ _ _, {| produced := []; failure := None |};
     inspect_vnics := λ _ _, {| produced := []; failure := None |};
     datetime_now := λ _, now;
     isotime := λ _, "2013-01-01T00:00:00Z" |}.

Definition empty_world : World :=
  {| trace := []; cache := ∅; utilization_map := ∅ |}.

(** [instance_1] was seen at time [t] with [prev_cpu] nanoseconds used. *)
Definition tracked_world (prev_cpu : Z) (t : datetime) : World :=
  {| trace := []; cache := ∅; utilization_map := {[ "i-1" := (prev_cpu, t) ]} |}.

Definition vda_stats : DiskStats :=
  {| read_requests := 10; read_bytes := 4096;
     write_requests := 5; write_bytes := 2048; errors := 0 |}.

Definition vdb_stats : DiskStats :=
  {| read_requests := 1; read_bytes := 512;
     write_requests := 2; write_bytes := 1024; errors := 0 |}.

Definition two_disks : list (Disk * DiskStats) :=
  [ ({| device := "vda" |}, vda_stats); ({| device := "vdb" |}, vdb_stats) ].

Definition vnet (name : string) (fref : option string) : Interface :=
  {| vnic_name := name;
     vnic_fref := fref;
     vnic_attrs := [("mac", mstr "fa:16:3e:00:00:01")] |}.

Definition vnet_stats : InterfaceStats :=
  {| rx_bytes := 100; rx_packets := 2; tx_bytes := 200; tx_packets := 3 |}.

(** An inspector that raises for the instance named [bad] and answers for
    every other one. *)
Definition ext_failing_for (bad : option string)
    (vnics : list (Interface * InterfaceStats)) : Externals :=
  {| inspect_cpus := λ _ n,
       if decide (n = bad) then Raise (InspectorError "instance not found")
       else Ok cpu_4_5000;
     inspect_disks := λ _ n,
       if decide (n = bad)
       then {| produced := [];
               failure := Some (InspectorError "instance not found") |}
       else {| produced := two_disks; failure := None |};
     inspect_vnics := λ _ n,
       if decide (n = bad)
       then {| produced := [];
               failure := Some (InspectorError "instance not found") |}
       else {| produced := vnics; failure := None |};
     datetime_now := λ _, 1000004;
     isotime := λ _, "2013-01-01T00:00:00Z" |}.

Definition instance_A : Instance := instance_named "i-A" (Some "instance-A") [].
Definition instance_B : Instance := instance_named "i-B" (Some "instance-B") [].
Definition instance_C : Instance := instance_named "i-C" (Some "instance-C") [].

Definition two_vnics : list (Interface * InterfaceStats) :=
  [ (vnet "vnet0" None, vnet_stats); (vnet "vnet1" None, vnet_stats) ].

(** Two vNICs filtered by the same libvirt filter. *)
Definition shared_filter_vnics : list (Interface * InterfaceStats) :=
  [ (vnet "vnet0" (Some "clean-traffic"), vnet_stats);
    (vnet "vnet1" (Some "clean-traffic"), vnet_stats) ].

(** An instance with two reserved keys, one of which would shadow the
    field [name], and one key that is not reserved. *)
Definition instance_with_metadata : Instance :=
  instance_named "i-1" (Some "instance-00000001")
    [ ("metering.stack.id", AStr "s-1");
      ("metering.name", AStr "x");
      ("other", AStr "y") ].

Definition cpu_counter_1 : Counter :=
  instance_counter default_CONF instance_1 "cpu" TYPE_CUMULATIVE "ns"
    (VInt 5000) "2013-01-01T00:00:00Z".

(** An inspector whose disk enumeration fails after the first disk. *)
Definition ext_failing_midway : Externals :=
  {| inspect_cpus := λ _ _, Ok cpu_4_5000;
     inspect_disks := λ _ _,
       {| produced := [ ({| device := "vda" |}, vda_stats) ];
          failure := Some (InspectorError "lost connection") |};
     inspect_vnics := λ _ _, {| produced := []; failure := None |};
     datetime_now := λ _, 1000004;
     isotime := λ _, "2013-01-01T00:00:00Z" |}.

Definition cpu_0_5000 : CPUStats := {| cpu_number := 0; cpu_time := 5000 |}.

Definition cpu_4_9000 : CPUStats := {| cpu_number := 4; cpu_time := 9000 |}.

(** A clock that advances by four microseconds at every reading. *)
Definition ticking_ext : Externals :=
  {| inspect_cpus := λ _ _, Ok cpu_4_5000;
     inspect_disks := λ _ _, {| produced := []; failure := None |};
     inspect_vnics := λ _ _, {| produced := []; failure := None |};
     datetime_now := λ tr, 1000000 + 4 * Z.of_nat (length tr);
     isotime := λ _, "2013-01-01T00:00:00Z" |}.

(** Two reserved keys with the same name once stripped. *)
Definition instance_with_collision : Instance :=
  instance_named "i-1" (Some "instance-00000001")
    [ ("metering.a.b", AStr "first");
      ("metering.a_b", AStr "second");
      ("metering.size", AInt 7) ].

Definition instance_without_flavor : Instance :=
  {| i_id := "i-0";
     i_name := "vm";
     i_user_id := "user";
     i_tenant_id := "tenant";
     i_hostId := "host";
     i_flavor := None;
     i_image := None;
     i_metadata := [];
     i_instance_name := Some "instance-00000000";
     i_props := ∅ |}.

Definition vnet0_counter : Counter :=
  vnic_counter instance_A "network.incoming.bytes" TYPE_CUMULATIVE "B"
    (VInt 100) (vnet "vnet0" None) "2013-01-01T00:00:00Z".

(** Sample data for the Gnocchi evaluator, with strings as values. *)

Definition gnocchi_evaluator : Gnocchi.Evaluator :=
  {| Gnocchi.gnocchi_url := "http://localhost:8041";
     Gnocchi.auth_token := "token" |}.

Definition resources_alarm : Gnocchi.Alarm string :=
  {| Gnocchi.alarm_type := "gnocchi_resources_threshold";
     Gnocchi.rule :=
       {[ "aggregation_method" := "mean";
          "resource_type" := "instance";
          "resource_id" := "i-1";
          "metric" := "cpu_util";
          "granularity" := "300" ]} |}.

Definition alarm_without_rule : Gnocchi.Alarm string :=
  {| Gnocchi.alarm_type := "gnocchi_resources_threshold";
     Gnocchi.rule := ∅ |}.

Definition measures : list (string * string * string) :=
  [ ("2015-01-01T00:00:00", "60", "1.0");
    ("2015-01-01T00:00:00", "300", "2.0");
    ("2015-01-01T00:05:00", "300", "3.0") ].

Definition answering (status : Z) (m : Gnocchi.http_method)
    (req : Gnocchi.Request string) : Gnocchi.res Gnocchi.Response :=
  Gnocchi.Val {| Gnocchi.status_code := status; Gnocchi.text := "[]" |}.

Definition decoding (text : string) : Gnocchi.res (list (list string)) :=
  Gnocchi.Val [["2015-01-01T00:00:00"; "300"; "2.0"]].
Section Facts.

Variable CONF : Config.
Variable ext : Externals.

Lemma get_cpu_util_run instance cpu_info w :
  let now := datetime_now ext (trace w) in
  get_cpu_util ext instance cpu_info w =
  {| yielded := [];
     final := cpu_util_of (utilization_map w !! i_id instance) now cpu_info;
     world :=
       {| trace := ReadNow :: trace w;
          cache := cache w;
          utilization_map :=
            <[i_id instance := (cpu_time cpu_info, now)]> (utilization_map w) |} |}.
Proof.
  unfold get_cpu_util. run.
  destruct (utilization_map w !! i_id instance) as [[prev_cpu prev_timestamp]|];
    simpl; [|reflexivity].
  unfold utilization_percent.
  destruct (py_float_div_int 1 (cpu_number cpu_info)); simpl; [|reflexivity].
  destruct (py_float_mul_int _ _); simpl; [|reflexivity].
  destruct (py_float_div_int _ _); reflexivity.
Qed.

End Facts.

Section CPU.

Variable CONF : Config.
Variable ext : Externals.

Lemma CPUPollster_get_counters_run instance w :
  CPUPollster_get_counters CONF ext instance w =
  cpu_outcome CONF ext instance w
    (inspect_cpus ext (trace w) (_instance_name instance)).
Proof.
  unfold CPUPollster_get_counters, cpu_outcome.
  destruct (inspect_cpus ext (trace w) (_instance_name instance))
    as [cpu_info|e] eqn:Hr.
  - unfold try_except, mbind, M_bind, external; cbn [final world yielded].
    rewrite Hr; cbn [lift mret M_ret final world yielded].
    rewrite get_cpu_util_run; cbn [final world yielded trace set_trace utilization_map].
    destruct (cpu_util_of _ _ _) as [v|e]; reflexivity.
  - unfold try_except, mbind, M_bind, external; cbn [final world yielded].
    rewrite Hr. reflexivity.
Qed.

End CPU.

(** ** The utilisation tracker *)

Section Tracker.

Variable CONF : Config.
Variable ext : Externals.

Lemma datetime_sub_bounds (a b : datetime) :
  0 ≤ seconds (datetime_sub a b) < 86400
  ∧ 0 ≤ microseconds (datetime_sub a b) < 1000000.
Proof.
  unfold datetime_sub; cbn [seconds microseconds].
  pose proof (Z.mod_pos_bound (a - b) 86400000000 ltac:(lia)) as Hm.
  pose proof (Z.mod_pos_bound (a - b) 1000000 ltac:(lia)) as Hu.
  split; [|lia]. split.
  - apply Z.div_pos; lia.
  - apply Z.div_lt_upper_bound; lia.
Qed.

Lemma elapsed_of_bounds (a b : datetime) :
  0 ≤ elapsed_of (datetime_sub a b) < 86400 * 10 ^ 9.
Proof.
  pose proof (datetime_sub_bounds a b) as [Hs Hu].
  unfold elapsed_of. change (10 ^ 6) with 1000000.
  change (10 ^ 9) with 1000000000. lia.
Qed.

Lemma datetime_sub_components (a b : datetime) (d s u : Z) :
  0 ≤ s < 86400 → 0 ≤ u < 10 ^ 6 →
  a - b = d * 86400 * 10 ^ 6 + s * 10 ^ 6 + u →
  datetime_sub a b = {| days := d; seconds := s; microseconds := u |}.
Proof.
  change (10 ^ 6) with 1000000. intros Hs Hu Hd.
  unfold datetime_sub. rewrite Hd.
  replace (d * 86400 * 1000000 + s * 1000000 + u)
    with ((s * 1000000 + u) + d * 86400000000) by lia.
  rewrite Z.div_add by lia. rewrite Z.mod_add by lia.
  rewrite (Z.div_small (s * 1000000 + u)) by lia.
  rewrite (Z.mod_small (s * 1000000 + u) 86400000000) by lia.
  replace (s * 1000000 + u + d * 86400000000)
    with (u + (s + d * 86400) * 1000000) by lia.
  rewrite Z.mod_add by lia. rewrite (Z.mod_small u) by lia.
  replace (s * 1000000 + u) with (u + s * 1000000) by lia.
  rewrite Z.div_add by lia. rewrite (Z.div_small u) by lia.
  f_equal; lia.
Qed.

Lemma py_float_div_int_zero (x : float) :
  py_float_div_int x 0 = Raise ZeroDivisionError.
Proof. reflexivity. Qed.

Lemma py_float_raises (z : Z) (e : exn) :
  py_float z = Raise e → e = OverflowError.
Proof.
  unfold py_float. destruct (PrimFloat.is_infinity _); congruence.
Qed.

Lemma py_float_mul_int_raises (x : float) (z : Z) (e : exn) :
  py_float_mul_int x z = Raise e → e = OverflowError.
Proof.
  unfold py_float_mul_int. destruct (py_float z) eqn:Hz; [discriminate|].
  intros [= <-]. by eapply py_float_raises.
Qed.

Lemma py_float_div_int_raises (x : float) (z : Z) (e : exn) :
  py_float_div_int x z = Raise e →
  e = ZeroDivisionError ∨ e = OverflowError.
Proof.
  unfold py_float_div_int. destruct (py_float z) eqn:Hz.
  - destruct (z =? 0); [|discriminate]. intros [= <-]. by left.
  - intros [= <-]. right. by eapply py_float_raises.
Qed.

Lemma utilization_percent_zero_elapsed (core_count time_used : Z) :
  utilization_percent core_count time_used 0 = Raise ZeroDivisionError
  ∨ utilization_percent core_count time_used 0 = Raise OverflowError.
Proof.
  unfold utilization_percent.
  destruct (py_float_div_int 1 core_count) as [f|e] eqn:Hf.
  - destruct (py_float_mul_int _ time_used) as [g|e] eqn:Hg.
    + left. apply py_float_div_int_zero.
    + right. by rewrite (py_float_mul_int_raises _ _ _ Hg).
  - destruct (py_float_div_int_raises _ _ _ Hf) as [-> | ->]; [by left|by right].
Qed.

(** C7.  After [get_cpu_util] for an instance, the tracker maps the id of
    the instance to the newly observed cumulative time and the reading of
    the clock, whether or not it had an entry before (and whether or not
    the computation raises), and the entry of every other id is as
    before. *)
Theorem get_cpu_util_updates_tracker instance cpu_info w :
  let now := datetime_now ext (trace w) in
  let m' := utilization_map (world (get_cpu_util ext instance cpu_info w)) in
  m' = <[i_id instance := (cpu_time cpu_info, now)]> (utilization_map w)
  ∧ m' !! i_id instance = Some (cpu_time cpu_info, now)
  ∧ ∀ other : string,
      other ≠ i_id instance → m' !! other = utilization_map w !! other.
Proof.
  intros now m'. subst m'. rewrite get_cpu_util_run.
  cbn [world utilization_map]. split; [reflexivity|]. split.
  - apply lookup_insert_eq.
  - intros other Hne. by apply lookup_insert_ne.
Qed.

(** C6.  When the tracker has no entry for the id of the instance,
    [get_cpu_util] returns 0.0; every [cpu_util] counter the CPU pollster
    yields has volume 0.0, and it does yield one whenever the inspector
    answers. *)
Theorem first_observation_has_zero_cpu_util instance w :
  utilization_map w !! i_id instance = None →
  (∀ cpu_info, final (get_cpu_util ext instance cpu_info w) = Ok 0%float)
  ∧ (∀ c, c ∈ yielded (CPUPollster_get_counters CONF ext instance w) →
          c_name c = "cpu_util" → c_volume c = VFloat 0)
  ∧ (∀ cpu_info,
       inspect_cpus ext (trace w) (_instance_name instance) = Ok cpu_info →
       name_volume <$> yielded (CPUPollster_get_counters CONF ext instance w)
       = [("cpu_util", VFloat 0); ("cpu", VInt (cpu_time cpu_info))]).
Proof.
  intros Hnone. split; [|split].
  - intros cpu_info. rewrite get_cpu_util_run. cbn [final]. by rewrite Hnone.
  - intros c. rewrite CPUPollster_get_counters_run. unfold cpu_outcome.
    destruct (inspect_cpus _ _ _) as [cpu_info|e]; cbn [yielded].
    + rewrite Hnone. cbn [cpu_util_of yielded].
      intros [->|[->|[]%elem_of_nil]%elem_of_cons]%elem_of_cons; cbn.
      * reflexivity.
      * discriminate.
    + by intros ?%elem_of_nil.
  - intros cpu_info Hr. rewrite CPUPollster_get_counters_run, Hr.
    unfold cpu_outcome. by rewrite Hnone.
Qed.




(** C5.  With a previous entry whose recorded time is above the newly
    observed cumulative time (the counter was reset), the time used that
    enters the formula is the new cumulative time, not the negative
    difference: 9000 before and 100 now give 100. *)
Theorem counter_reset_uses_cumulative_time instance w cpu_info
    prev_time prev_timestamp :
  let elapsed :=
    elapsed_of (datetime_sub (datetime_now ext (trace w)) prev_timestamp) in
  utilization_map w !! i_id instance = Some (prev_time, prev_timestamp) →
  cpu_time cpu_info < prev_time →
  time_used_of prev_time cpu_info = cpu_time cpu_info
  ∧ final (get_cpu_util ext instance cpu_info w)
    = utilization_percent (cpu_number cpu_info) (cpu_time cpu_info) elapsed
  ∧ (0 ≤ cpu_time cpu_info → 0 ≤ time_used_of prev_time cpu_info)
  ∧ time_used_of 9000 cpu_4_100 = 100.
Proof.
  intros elapsed Hprev Hlt.
  assert (time_used_of prev_time cpu_info = cpu_time cpu_info) as Htu.
  { unfold time_used_of.
    destruct (Z.leb_spec prev_time (cpu_time cpu_info)); [lia|done]. }
  split; [done|]. split; [|split].
  - rewrite get_cpu_util_run. cbn [final]. rewrite Hprev. cbn [cpu_util_of].
    by rewrite Htu.
  - by rewrite Htu.
  - reflexivity.
Qed.

(** C9.  The elapsed time that divides the utilisation comes from the
    seconds and microseconds of the difference of the two clock readings
    only: for readings [d] days, [s] seconds and [u] microseconds apart it
    is [(s * 10^6 + u) * 1000], whatever [d] is. *)
Theorem elapsed_ignores_days instance w cpu_info prev_time prev_timestamp
    (d s u : Z) :
  let now := datetime_now ext (trace w) in
  utilization_map w !! i_id instance = Some (prev_time, prev_timestamp) →
  0 ≤ s < 86400 →
  0 ≤ u < 10 ^ 6 →
  now - prev_timestamp = d * 86400 * 10 ^ 6 + s * 10 ^ 6 + u →
  datetime_sub now prev_timestamp
  = {| days := d; seconds := s; microseconds := u |}
  ∧ elapsed_of (datetime_sub now prev_timestamp) = (s * 10 ^ 6 + u) * 1000
  ∧ final (get_cpu_util ext instance cpu_info w)
    = utilization_percent (cpu_number cpu_info)
        (time_used_of prev_time cpu_info) ((s * 10 ^ 6 + u) * 1000).
Proof.
  intros now Hprev Hs Hu Hd.
  pose proof (datetime_sub_components _ _ _ _ _ Hs Hu Hd) as Hsub.
  split; [done|]. split.
  - by rewrite Hsub.
  - rewrite get_cpu_util_run. cbn [final]. rewrite Hprev. cbn [cpu_util_of].
    fold now. by rewrite Hsub.
Qed.

(** C2, as the code has it.  With a previous entry, the elapsed time the
    code computes is never negative.  When it is zero, [get_cpu_util]
    raises an arithmetic error instead of returning 0; the tracker has been
    updated by then, [CPUPollster.get_counters] catches the error and
    yields no counter for the instance. *)
Theorem zero_elapsed_raises_and_is_caught instance w cpu_info
    prev_time prev_timestamp :
  let w1 := set_trace (CallInspectCpus (_instance_name instance) :: trace w) w in
  let now := datetime_now ext (trace w1) in
  let elapsed := elapsed_of (datetime_sub now prev_timestamp) in
  let o := CPUPollster_get_counters CONF ext instance w in
  inspect_cpus ext (trace w) (_instance_name instance) = Ok cpu_info →
  utilization_map w !! i_id instance = Some (prev_time, prev_timestamp) →
  0 ≤ elapsed
  ∧ (elapsed = 0 →
     (final (get_cpu_util ext instance cpu_info w1) = Raise ZeroDivisionError
      ∨ final (get_cpu_util ext instance cpu_info w1) = Raise OverflowError)
     ∧ yielded o = []
     ∧ final o = Ok tt
     ∧ utilization_map (world o) !! i_id instance
       = Some (cpu_time cpu_info, now)).
Proof.
  intros w1 now elapsed o Hr Hprev. subst o elapsed now w1.
  cbn [set_trace trace utilization_map]. split.
  { apply elapsed_of_bounds. }
  intros Hzero.
  pose proof (utilization_percent_zero_elapsed (cpu_number cpu_info)
                (time_used_of prev_time cpu_info)) as Hraise.
  rewrite get_cpu_util_run, CPUPollster_get_counters_run, Hr.
  unfold cpu_outcome. cbn [final set_trace trace utilization_map].
  rewrite Hprev. cbn [cpu_util_of]. rewrite Hzero.
  split; [done|].
  destruct Hraise as [-> | ->]; cbn; by rewrite lookup_insert_eq.
Qed.

End Tracker.

(** *** Instances of the tracker properties *)

Lemma get_cpu_util_updates_tracker_witness :
  utilization_map
    (world (get_cpu_util (steady_ext cpu_4_5000 1000004) instance_1 cpu_4_5000
              (tracked_world 1000 1000000))) !! "i-2" = None.
Proof.
  pose proof (get_cpu_util_updates_tracker (steady_ext cpu_4_5000 1000004)
                instance_1 cpu_4_5000 (tracked_world 1000 1000000)) as H.
  destruct H as (_ & _ & H). rewrite (H "i-2"); [reflexivity|discriminate].
Defined.

Lemma first_observation_has_zero_cpu_util_witness :
  utilization_map empty_world !! i_id instance_1 = None
  ∧ name_volume
      <$> yielded (CPUPollster_get_counters default_CONF
                     (steady_ext cpu_4_5000 1000004) instance_1 empty_world)
    = [("cpu_util", VFloat 0); ("cpu", VInt 5000)].
Proof.
  split; [reflexivity|].
  pose proof (first_observation_has_zero_cpu_util default_CONF
                (steady_ext cpu_4_5000 1000004) instance_1 empty_world
                eq_refl) as H.
  destruct H as (_ & _ & H). exact (H cpu_4_5000 eq_refl).
Defined.



Lemma counter_reset_uses_cumulative_time_witness :
  utilization_map (tracked_world 9000 1000000) !! i_id instance_1
  = Some (9000, 1000000)
  ∧ cpu_time cpu_4_100 < 9000
  ∧ final (get_cpu_util (steady_ext cpu_4_100 1000004) instance_1 cpu_4_100
             (tracked_world 9000 1000000))
    = utilization_percent 4 100 4000.
Proof.
  split; [reflexivity|]. split; [reflexivity|].
  pose proof (counter_reset_uses_cumulative_time
                (steady_ext cpu_4_100 1000004) instance_1
                (tracked_world 9000 1000000) cpu_4_100 9000 1000000
                eq_refl eq_refl) as H.
  destruct H as (_ & H & _). exact H.
Defined.

Lemma elapsed_ignores_days_witness :
  172800000004 - 0 = 2 * 86400 * 10 ^ 6 + 0 * 10 ^ 6 + 4
  ∧ elapsed_of (datetime_sub 172800000004 0) = 4000
  ∧ final (get_cpu_util (steady_ext cpu_4_5000 172800000004) instance_1
             cpu_4_5000 (tracked_world 1000 0))
    = Ok 25%float.
Proof.
  split; [reflexivity|].
  pose proof (elapsed_ignores_days (steady_ext cpu_4_5000 172800000004)
                instance_1 (tracked_world 1000 0) cpu_4_5000 1000 0 2 0 4
                eq_refl ltac:(lia) ltac:(lia) eq_refl) as H.
  destruct H as (_ & He & Hf). split; [exact He|]. rewrite Hf. reflexivity.
Defined.

Lemma zero_elapsed_raises_and_is_caught_witness :
  elapsed_of (datetime_sub 1000000 1000000) = 0
  ∧ final (get_cpu_util (steady_ext cpu_4_5000 1000000) instance_1 cpu_4_5000
             (set_trace [CallInspectCpus (Some "instance-00000001")]
                (tracked_world 1000 1000000)))
    = Raise ZeroDivisionError
  ∧ yielded (CPUPollster_get_counters default_CONF
               (steady_ext cpu_4_5000 1000000) instance_1
               (tracked_world 1000 1000000)) = [].
Proof.
  split; [reflexivity|].
  pose proof (zero_elapsed_raises_and_is_caught default_CONF
                (steady_ext cpu_4_5000 1000000) instance_1
                (tracked_world 1000 1000000) cpu_4_5000 1000 1000000
                eq_refl eq_refl) as H.
  destruct H as (_ & H). destruct (H eq_refl) as (Hf & Hy & _).
  split; [|exact Hy].
  destruct Hf as [Hf|Hf]; [exact Hf|discriminate Hf].
Defined.

(** C2 as it is written fails: with a previous entry taken at the very
    reading of the clock (elapsed time 0), [get_cpu_util] raises
    [ZeroDivisionError] instead of returning 0, and the pollster yields no
    [cpu_util] counter at all. *)
Lemma zero_elapsed_counterexample :
  datetime_now (steady_ext cpu_4_5000 1000000)
    (trace (tracked_world 1000 1000000)) - 1000000 ≤ 0
  ∧ utilization_map (tracked_world 1000 1000000) !! i_id instance_1
    = Some (1000, 1000000)
  ∧ final (get_cpu_util (steady_ext cpu_4_5000 1000000) instance_1 cpu_4_5000
             (tracked_world 1000 1000000))
    = Raise ZeroDivisionError
  ∧ yielded (CPUPollster_get_counters default_CONF
               (steady_ext cpu_4_5000 1000000) instance_1
               (tracked_world 1000 1000000)) = [].
Proof.
  split; [cbn; lia|]. split; [reflexivity|]. split; reflexivity.
Qed.

(** A clock that went back by one microsecond: the elapsed time the code
    computes is one day minus one microsecond, and the utilisation is
    positive. *)
Example clock_going_back :
  elapsed_of (datetime_sub 999999 1000000) = 86399999999000
  ∧ ∃ v, final (get_cpu_util (steady_ext cpu_4_5000 999999) instance_1
                  cpu_4_5000 (tracked_world 1000 1000000)) = Ok v
         ∧ PrimFloat.ltb 0 v = true.
Proof.
  split; [reflexivity|]. eexists. split; reflexivity.
Qed.

(** ** The cycle cache of the disk pollster *)

Section DiskCache.

Variable CONF : Config.
Variable ext : Externals.

Lemma populate_cache_hit instance instance_name w d :
  cached instance_name w = Some d →
  _populate_cache ext instance instance_name w
  = {| yielded := []; final := Ok d; world := w |}.
Proof.
  unfold cached, _populate_cache, cache_setdefault. intros Hc.
  destruct (cache w !! CACHE_KEY_DISK) as [i_cache|] eqn:Hk; [|done].
  cbn in Hc. run. rewrite Hk. run. by rewrite Hc.
Qed.

Lemma populate_cache_miss instance instance_name w :
  cached instance_name w = None →
  let disks := inspect_disks ext (trace w) instance_name in
  let i_cache := default ∅ (cache w !! CACHE_KEY_DISK) in
  let sums := foldl add_disk DiskIOData_zero (produced disks) in
  let tr := CallInspectDisks instance_name :: trace w in
  _populate_cache ext instance instance_name w
  = match failure disks with
    | Some e =>
        {| yielded := [];
           final := Raise e;
           world := {| trace := tr;
                       cache := <[CACHE_KEY_DISK := i_cache]> (cache w);
                       utilization_map := utilization_map w |} |}
    | None =>
        {| yielded := [];
           final := Ok sums;
           world := {| trace := tr;
                       cache := <[CACHE_KEY_DISK := <[instance_name := sums]> i_cache]>
                                  (cache w);
                       utilization_map := utilization_map w |} |}
    end.
Proof.
  unfold cached, _populate_cache, cache_setdefault. intros Hc.
  destruct (cache w !! CACHE_KEY_DISK) as [i_cache|] eqn:Hk.
  - cbn in Hc. run. rewrite Hk. run. rewrite Hc. run.
    destruct (failure _); run.
    + by rewrite insert_id.
    + reflexivity.
  - run. rewrite Hk. run. rewrite lookup_empty. run.
    destruct (failure _); run.
    + reflexivity.
    + by rewrite insert_insert_eq.
Qed.

Lemma populate_cache_yields_nothing instance instance_name w :
  yielded (_populate_cache ext instance instance_name w) = [].
Proof.
  destruct (cached instance_name w) as [d|] eqn:Hc.
  - by rewrite (populate_cache_hit _ _ _ _ Hc).
  - rewrite (populate_cache_miss _ _ _ Hc). by destruct (failure _).
Qed.

Lemma DiskIOPollster_get_counters_run instance w :
  DiskIOPollster_get_counters CONF ext instance w
  = disk_outcome CONF ext instance
      (_populate_cache ext instance (_instance_name instance) w).
Proof.
  unfold DiskIOPollster_get_counters, disk_outcome.
  unfold mbind at 1, M_bind at 1.
  pose proof (populate_cache_yields_nothing instance (_instance_name instance) w)
    as Hy.
  destruct (_populate_cache ext instance (_instance_name instance) w)
    as [ys [d|e] w1]; cbn in Hy; subst ys; cbn [final world yielded].
  - run. reflexivity.
  - reflexivity.
Qed.

End DiskCache.

Section DiskCalls.

Variable CONF : Config.
Variable ext : Externals.

Lemma disk_calls_cons instance_name e tr :
  disk_calls instance_name (e :: tr)
  = ((if decide (e = CallInspectDisks instance_name) then 1 else 0)
     + disk_calls instance_name tr)%nat.
Proof.
  unfold disk_calls. rewrite filter_cons. by case_decide.
Qed.

Lemma disk_calls_isotime instance_name tr :
  disk_calls instance_name (ReadIsotime :: tr) = disk_calls instance_name tr.
Proof. rewrite disk_calls_cons. by case_decide. Qed.

(** With an aggregate in the cache for [instance_name], a collection of the
    disk pollster, for whatever instance, keeps that aggregate and makes no
    call of [inspect_disks] for [instance_name]; for an instance of that
    name it yields the cached aggregate and ends normally. *)
Lemma disk_collection_with_cached instance_name d instance w :
  cached instance_name w = Some d →
  let o := DiskIOPollster_get_counters CONF ext instance w in
  cached instance_name (world o) = Some d
  ∧ disk_calls instance_name (trace (world o))
    = disk_calls instance_name (trace w)
  ∧ (_instance_name instance = instance_name →
     final o = Ok tt ∧ c_volume <$> yielded o = disk_volumes d).
Proof.
  intros Hc o. subst o. rewrite DiskIOPollster_get_counters_run.
  destruct (decide (_instance_name instance = instance_name)) as [<-|Hne].
  - rewrite (populate_cache_hit _ _ _ _ _ Hc). unfold disk_outcome.
    cbn [final world yielded trace set_trace].
    rewrite !disk_calls_isotime. done.
  - destruct (cached (_instance_name instance) w) as [d'|] eqn:Hc'.
    + rewrite (populate_cache_hit _ _ _ _ _ Hc'). unfold disk_outcome.
      cbn [final world yielded trace set_trace].
      rewrite !disk_calls_isotime. done.
    + rewrite (populate_cache_miss _ _ _ _ Hc').
      assert (∀ data : gmap (option string) DiskIOData → gmap (option string) DiskIOData,
                (∀ c, data c !! instance_name = c !! instance_name) →
                <[CACHE_KEY_DISK := data (default ∅ (cache w !! CACHE_KEY_DISK))]>
                  (cache w) !! CACHE_KEY_DISK
                ≫= (λ i_cache, i_cache !! instance_name) = Some d) as Hkeep.
      { intros data Hdata. rewrite (lookup_insert_eq (cache w)). cbn. rewrite Hdata.
        unfold cached in Hc.
        destruct (cache w !! CACHE_KEY_DISK); [exact Hc|done]. }
      destruct (failure _); unfold disk_outcome, cached;
        cbn [final world yielded trace set_trace cache].
      * split; [exact (Hkeep (λ c, c) (λ c, eq_refl))|].
        rewrite disk_calls_cons. case_decide; [congruence|done].
      * split.
        { apply (Hkeep (λ c, <[_instance_name instance := _]> c)).
          intros c. by apply lookup_insert_ne. }
        rewrite !disk_calls_isotime, disk_calls_cons.
        case_decide; [congruence|done].
Qed.

Lemma consume_each_with_cached instance_name d later w :
  cached instance_name w = Some d →
  let rest := consume_each (DiskIOPollster_get_counters CONF ext) later w in
  cached instance_name rest.2 = Some d
  ∧ disk_calls instance_name (trace rest.2)
    = disk_calls instance_name (trace w)
  ∧ Forall2 (λ instance o,
               _instance_name instance = instance_name →
               final o = Ok tt ∧ c_volume <$> yielded o = disk_volumes d)
      later rest.1.
Proof.
  revert w. induction later as [|instance later IH]; intros w Hc; cbn.
  - done.
  - destruct (disk_collection_with_cached _ _ instance _ Hc) as (Hc1 & Hn1 & Hv1).
    destruct (IH _ Hc1) as (Hc2 & Hn2 & Hv2).
    split; [exact Hc2|]. split; [congruence|]. by constructor.
Qed.

(** C3, as the code has it.  Once a collection of the disk pollster for an
    instance has ended normally, it has called [inspect_disks] for that
    instance at most once, the aggregate it yielded is in the cycle cache,
    and every later collection sharing the cache, for this or any other
    instance, makes no further call of [inspect_disks] for that instance;
    those for an instance of the same name yield the cached aggregate. *)
Theorem disk_cache_serves_later_collections instance w
    (later : list Instance) :
  let instance_name := _instance_name instance in
  let first := DiskIOPollster_get_counters CONF ext instance w in
  let rest :=
    consume_each (DiskIOPollster_get_counters CONF ext) later (world first) in
  final first = Ok tt →
  (disk_calls instance_name (trace (world first))
   ≤ disk_calls instance_name (trace w) + 1)%nat
  ∧ ∃ d,
      cached instance_name (world first) = Some d
      ∧ c_volume <$> yielded first = disk_volumes d
      ∧ disk_calls instance_name (trace rest.2)
        = disk_calls instance_name (trace (world first))
      ∧ Forall2 (λ other o,
                   _instance_name other = instance_name →
                   final o = Ok tt ∧ c_volume <$> yielded o = disk_volumes d)
          later rest.1.
Proof.
  intros instance_name first rest Hfinal.
  assert ((disk_calls instance_name (trace (world first))
           ≤ disk_calls instance_name (trace w) + 1)%nat
          ∧ ∃ d, cached instance_name (world first) = Some d
                 ∧ c_volume <$> yielded first = disk_volumes d)
    as (Hcalls & d & Hc & Hv).
  { subst first. revert Hfinal. rewrite DiskIOPollster_get_counters_run.
    fold instance_name.
    destruct (cached instance_name w) as [d|] eqn:Hc.
    - rewrite (populate_cache_hit _ _ _ _ _ Hc). unfold disk_outcome.
      cbn [final world yielded trace set_trace]. intros _.
      rewrite !disk_calls_isotime. split; [lia|]. by exists d.
    - rewrite (populate_cache_miss _ _ _ _ Hc).
      destruct (failure _); unfold disk_outcome;
        cbn [final world yielded trace set_trace]; [done|]. intros _.
      rewrite !disk_calls_isotime, disk_calls_cons.
      split; [case_decide; lia|].
      eexists. split; [|reflexivity].
      unfold cached; cbn [cache world set_trace].
      rewrite (lookup_insert_eq (cache w)). cbn.
      apply lookup_insert_eq. }
  split; [exact Hcalls|]. exists d.
  destruct (consume_each_with_cached _ _ later _ Hc) as (_ & Hn & Hf).
  done.
Qed.

End DiskCalls.

Lemma disk_cache_serves_later_collections_witness :
  final (DiskIOPollster_get_counters default_CONF (ext_failing_for None [])
           instance_A empty_world) = Ok tt
  ∧ disk_calls (Some "instance-A")
      (trace (consume_each
                (DiskIOPollster_get_counters default_CONF
                   (ext_failing_for None []))
                [instance_A; instance_B; instance_A]
                (world (DiskIOPollster_get_counters default_CONF
                          (ext_failing_for None []) instance_A empty_world))).2)
    = 1%nat.
Proof.
  split; [reflexivity|].
  pose proof (disk_cache_serves_later_collections default_CONF
                (ext_failing_for None []) instance_A empty_world
                [instance_A; instance_B; instance_A] eq_refl) as H.
  destruct H as (_ & d & _ & _ & H & _). exact (eq_trans H eq_refl).
Defined.

(** C3 as it is written fails when the enumeration raises: nothing is
    cached, and two collections for the same instance sharing the cache
    call [inspect_disks] twice for it. *)
Lemma disk_cache_counterexample :
  disk_calls (Some "instance-B")
    (trace (consume_each
              (DiskIOPollster_get_counters default_CONF
                 (ext_failing_for (Some "instance-B") []))
              [instance_B; instance_B] empty_world).2)
  = 2%nat.
Proof. reflexivity. Qed.

(** ** The network pollster *)

Section Net.

Variable CONF : Config.
Variable ext : Externals.

Lemma set_trace_same w : set_trace (trace w) w = w.
Proof. by destruct w. Qed.

Lemma vnic_counters_run instance item w :
  vnic_counters ext instance item w
  = {| yielded := vnic_counters_at ext instance item (trace w);
       final := Ok tt;
       world := set_trace (four_isotime (trace w)) w |}.
Proof. unfold vnic_counters, make_vnic_counter. run. reflexivity. Qed.

Lemma for_each_vnic_run instance items w :
  for_each items (vnic_counters ext instance) w
  = {| yielded := net_counters ext instance items (trace w);
       final := Ok tt;
       world := set_trace (net_trace items (trace w)) w |}.
Proof.
  revert w. induction items as [|item rest IH]; intros w.
  - cbn. by rewrite set_trace_same.
  - cbn [for_each]. unfold mbind, M_bind. rewrite vnic_counters_run.
    cbn [final world yielded]. rewrite IH. reflexivity.
Qed.

Lemma NetPollster_get_counters_run instance w :
  let tr := CallInspectVnics (_instance_name instance) :: trace w in
  let vnics := inspect_vnics ext (trace w) (_instance_name instance) in
  NetPollster_get_counters ext instance w
  = {| yielded := net_counters ext instance (produced vnics) tr;
       final := Ok tt;
       world := set_trace (net_trace (produced vnics) tr) w |}.
Proof.
  intros tr vnics.
  unfold NetPollster_get_counters, try_except, for_lazy.
  unfold mbind at 1, M_bind at 1, external. cbn [final world yielded].
  unfold mbind, M_bind. rewrite for_each_vnic_run.
  cbn [final world yielded trace set_trace]. fold vnics. fold tr.
  destruct (failure vnics); cbn; by rewrite ?app_nil_r.
Qed.

Lemma net_counters_shape instance items tr :
  length (net_counters ext instance items tr) = (4 * length items)%nat
  ∧ c_name <$> net_counters ext instance items tr
    = flat_map (λ _, NET_COUNTER_NAMES) items
  ∧ Forall (λ c, c_type c = TYPE_CUMULATIVE)
      (net_counters ext instance items tr)
  ∧ c_volume <$> net_counters ext instance items tr
    = flat_map vnic_volumes items
  ∧ c_resource_id <$> net_counters ext instance items tr
    = flat_map (λ item, replicate 4 (vnic_rid instance item.1)) items.
Proof.
  revert tr. induction items as [|item rest IH]; intros tr.
  - cbn. repeat split. constructor.
  - destruct (IH (four_isotime tr)) as (Hl & Hn & Ht & Hv & Hr).
    cbn [net_counters flat_map vnic_counters_at app length fmap list_fmap].
    rewrite Hl, Hn, Hv, Hr. repeat split; [lia|].
    repeat constructor. exact Ht.
Qed.

Lemma synthesized_rid_inj (prefix id a b : string) :
  String.append prefix (String.append "-" (String.append id (String.append "-" a)))
  = String.append prefix (String.append "-" (String.append id (String.append "-" b)))
  → a = b.
Proof.
  intros H.
  by do 4 apply String.app_inj in H.
Qed.

End Net.

Section NetCounters.

Variable CONF : Config.
Variable ext : Externals.

(** C8, as the code has it.  For the vNICs that the inspector reports for
    an instance, the network pollster yields four counters per vNIC, named
    network.incoming.bytes, network.outgoing.bytes,
    network.incoming.packets and network.outgoing.packets, all
    cumulative.  The resource id of each is the stable reference of its
    vNIC when there is one, and otherwise the instance name, the instance
    id and the vNIC name joined by dashes.  Two vNICs without a reference
    have different resource ids exactly when their names differ, and two
    vNICs with a reference exactly when their references differ. *)
Theorem net_counters_per_vnic instance w :
  let vnics := produced (inspect_vnics ext (trace w) (_instance_name instance)) in
  let o := NetPollster_get_counters ext instance w in
  final o = Ok tt
  ∧ length (yielded o) = (4 * length vnics)%nat
  ∧ c_name <$> yielded o = flat_map (λ _, NET_COUNTER_NAMES) vnics
  ∧ Forall (λ c, c_type c = TYPE_CUMULATIVE) (yielded o)
  ∧ c_volume <$> yielded o = flat_map vnic_volumes vnics
  ∧ c_resource_id <$> yielded o
    = flat_map (λ item, replicate 4 (vnic_rid instance item.1)) vnics
  ∧ (∀ v : Interface,
       vnic_rid instance v
       = match vnic_fref v with
         | Some fref => fref
         | None =>
             String.append (Str.of_option (_instance_name instance))
               (String.append "-"
                  (String.append (i_id instance)
                     (String.append "-" (vnic_name v))))
         end)
  ∧ (∀ v1 v2 : Interface,
       vnic_fref v1 = None → vnic_fref v2 = None →
       (vnic_rid instance v1 ≠ vnic_rid instance v2
        ↔ vnic_name v1 ≠ vnic_name v2))
  ∧ (∀ (v1 v2 : Interface) (f1 f2 : string),
       vnic_fref v1 = Some f1 → vnic_fref v2 = Some f2 →
       (vnic_rid instance v1 ≠ vnic_rid instance v2 ↔ f1 ≠ f2)).
Proof.
  intros vnics o. subst o. rewrite NetPollster_get_counters_run.
  cbn [final yielded]. fold vnics.
  destruct (net_counters_shape ext instance vnics
              (CallInspectVnics (_instance_name instance) :: trace w))
    as (Hl & Hn & Ht & Hv & Hr).
  do 6 (split; [done|]). split; [reflexivity|]. split.
  - intros v1 v2 H1 H2. unfold vnic_rid. rewrite H1, H2. split.
    + intros Hne Heq. apply Hne. by rewrite Heq.
    + intros Hne Heq. apply Hne. by eapply synthesized_rid_inj.
  - intros v1 v2 f1 f2 H1 H2. unfold vnic_rid. by rewrite H1, H2.
Qed.

End NetCounters.

Lemma net_counters_per_vnic_witness :
  c_resource_id
    <$> yielded (NetPollster_get_counters (ext_failing_for None two_vnics)
                   instance_A empty_world)
  = replicate 4 "instance-A-i-A-vnet0" ++ replicate 4 "instance-A-i-A-vnet1"
  ∧ vnic_rid instance_A (vnet "vnet0" None)
    ≠ vnic_rid instance_A (vnet "vnet1" None).
Proof.
  pose proof (net_counters_per_vnic (ext_failing_for None two_vnics)
                instance_A empty_world) as H.
  destruct H as (_ & _ & _ & _ & _ & Hr & _ & Hd & _).
  split; [exact Hr|].
  apply (Hd (vnet "vnet0" None) (vnet "vnet1" None) eq_refl eq_refl).
  discriminate.
Defined.

(** C8 as it is written fails for two vNICs that carry the same stable
    reference: the eight counters all have that reference as their
    resource id. *)
Lemma net_counters_counterexample :
  vnic_name (vnet "vnet0" (Some "clean-traffic"))
  ≠ vnic_name (vnet "vnet1" (Some "clean-traffic"))
  ∧ c_resource_id
      <$> yielded (NetPollster_get_counters
                     (ext_failing_for None shared_filter_vnics)
                     instance_A empty_world)
    = replicate 8 "clean-traffic".
Proof. split; [discriminate|reflexivity]. Qed.

(** ** Failure isolation *)

Section Isolation.

Variable CONF : Config.
Variable ext : Externals.

Lemma outcome_eta {A} (o : outcome A) :
  {| yielded := yielded o; final := final o; world := world o |} = o.
Proof. by destruct o. Qed.

Lemma poll_instances_cons get_counters instance rest w :
  final (get_counters instance w) = Ok tt →
  yielded (get_counters instance w) = [] →
  poll_instances get_counters (instance :: rest) w
  = poll_instances get_counters rest (world (get_counters instance w)).
Proof.
  intros Hf Hy. cbn [poll_instances]. unfold mbind, M_bind.
  destruct (get_counters instance w) as [ys r w1].
  cbn in Hf, Hy. subst ys r. cbn [world app].
  by destruct (poll_instances get_counters rest w1).
Qed.

Lemma poll_instances_never_raises get_counters instances w :
  (∀ instance w', final (get_counters instance w') = Ok tt) →
  final (poll_instances get_counters instances w) = Ok tt.
Proof.
  intros Hok. revert w. induction instances as [|instance rest IH]; intros w.
  - reflexivity.
  - cbn [poll_instances]. unfold mbind, M_bind.
    specialize (Hok instance w).
    destruct (get_counters instance w) as [ys r w1]. cbn in Hok. subst r.
    specialize (IH w1).
    by destruct (poll_instances get_counters rest w1).
Qed.

Lemma CPUPollster_never_raises instance w :
  final (CPUPollster_get_counters CONF ext instance w) = Ok tt.
Proof.
  rewrite CPUPollster_get_counters_run. unfold cpu_outcome.
  destruct (inspect_cpus _ _ _); [|done].
  by destruct (cpu_util_of _ _ _).
Qed.

Lemma NetPollster_never_raises instance w :
  final (NetPollster_get_counters ext instance w) = Ok tt.
Proof. by rewrite NetPollster_get_counters_run. Qed.

Lemma InstancePollster_get_counters_run instance w f :
  i_flavor instance = Some f →
  InstancePollster_get_counters CONF ext instance w
  = {| yielded :=
         [ instance_counter CONF instance "instance" TYPE_GAUGE "instance"
             (VInt 1) (isotime ext (trace w));
           instance_counter CONF instance
             (String.append "instance:" (flavor_name f)) TYPE_GAUGE
             "instance" (VInt 1) (isotime ext (ReadIsotime :: trace w)) ];
       final := Ok tt;
       world := set_trace (ReadIsotime :: ReadIsotime :: trace w) w |}.
Proof.
  intros Hf. unfold InstancePollster_get_counters. rewrite Hf. run.
  reflexivity.
Qed.

(** C1, as the code has it.  When the call of the inspector raises for an
    instance, the CPU pollster and the network pollster yield nothing for
    it and end normally, having done no more than the call, and a pass over
    the instances goes on with the remaining ones; no pass of either
    pollster ever ends with an error.  The instance pollster does not call
    the inspector: for an instance with a flavor it yields its two
    counters and reads only the clock. *)
Theorem inspector_failure_is_isolated instance w (rest : list Instance) :
  let instance_name := _instance_name instance in
  let cpu := CPUPollster_get_counters CONF ext in
  let net := NetPollster_get_counters ext in
  (∀ e,
     inspect_cpus ext (trace w) instance_name = Raise e →
     cpu instance w
     = {| yielded := [];
          final := Ok tt;
          world := set_trace (CallInspectCpus instance_name :: trace w) w |}
     ∧ poll_instances cpu (instance :: rest) w
       = poll_instances cpu rest
           (set_trace (CallInspectCpus instance_name :: trace w) w))
  ∧ (∀ e,
       inspect_vnics ext (trace w) instance_name
       = {| produced := []; failure := Some e |} →
       net instance w
       = {| yielded := [];
            final := Ok tt;
            world := set_trace (CallInspectVnics instance_name :: trace w) w |}
       ∧ poll_instances net (instance :: rest) w
         = poll_instances net rest
             (set_trace (CallInspectVnics instance_name :: trace w) w))
  ∧ (∀ instances w', final (poll_instances cpu instances w') = Ok tt)
  ∧ (∀ instances w', final (poll_instances net instances w') = Ok tt)
  ∧ (∀ f,
       i_flavor instance = Some f →
       let o := InstancePollster_get_counters CONF ext instance w in
       c_name <$> yielded o
       = ["instance"; String.append "instance:" (flavor_name f)]
       ∧ final o = Ok tt
       ∧ trace (world o) = ReadIsotime :: ReadIsotime :: trace w).
Proof.
  intros instance_name cpu net. subst cpu net.
  split; [|split; [|split; [|split]]].
  - intros e He.
    assert (CPUPollster_get_counters CONF ext instance w
            = {| yielded := [];
                 final := Ok tt;
                 world := set_trace (CallInspectCpus instance_name :: trace w) w |})
      as Hrun.
    { rewrite CPUPollster_get_counters_run. fold instance_name.
      by rewrite He. }
    split; [exact Hrun|].
    rewrite poll_instances_cons; by rewrite Hrun.
  - intros e He.
    assert (NetPollster_get_counters ext instance w
            = {| yielded := [];
                 final := Ok tt;
                 world := set_trace (CallInspectVnics instance_name :: trace w) w |})
      as Hrun.
    { rewrite NetPollster_get_counters_run. fold instance_name.
      by rewrite He. }
    split; [exact Hrun|].
    rewrite poll_instances_cons; by rewrite Hrun.
  - intros instances w'. apply poll_instances_never_raises.
    apply CPUPollster_never_raises.
  - intros instances w'. apply poll_instances_never_raises.
    apply NetPollster_never_raises.
  - intros f Hf o. subst o.
    by rewrite (InstancePollster_get_counters_run _ _ _ Hf).
Qed.

End Isolation.

Lemma inspector_failure_is_isolated_witness :
  inspect_cpus (ext_failing_for (Some "instance-B") two_vnics) []
    (Some "instance-B")
  = Raise (InspectorError "instance not found")
  ∧ c_resource_id
      <$> yielded (poll_instances
                     (CPUPollster_get_counters default_CONF
                        (ext_failing_for (Some "instance-B") two_vnics))
                     [instance_B; instance_C] empty_world)
    = ["i-C"; "i-C"].
Proof.
  split; [reflexivity|].
  pose proof (inspector_failure_is_isolated default_CONF
                (ext_failing_for (Some "instance-B") two_vnics)
                instance_B empty_world [instance_C]) as H.
  destruct H as (H & _).
  destruct (H (InspectorError "instance not found") eq_refl) as (_ & Hp).
  rewrite Hp. reflexivity.
Defined.

(** C1 as it is written fails, with an inspector that raises for instance
    B: the instance pollster yields its two counters for B all the same,
    and the error of [inspect_disks] leaves the disk pollster, whose call
    of [_populate_cache] comes before its [try]. *)
Lemma inspector_failure_counterexample :
  inspect_disks (ext_failing_for (Some "instance-B") two_vnics) []
    (_instance_name instance_B)
  = {| produced := [];
       failure := Some (InspectorError "instance not found") |}
  ∧ c_name
      <$> yielded (InstancePollster_get_counters default_CONF
                     (ext_failing_for (Some "instance-B") two_vnics)
                     instance_B empty_world)
    = ["instance"; "instance:m1.small"]
  ∧ final (DiskIOPollster_get_counters default_CONF
             (ext_failing_for (Some "instance-B") two_vnics)
             instance_B empty_world)
    = Raise (InspectorError "instance not found")
  ∧ c_resource_id
      <$> yielded (poll_instances
                     (DiskIOPollster_get_counters default_CONF
                        (ext_failing_for (Some "instance-B") two_vnics))
                     [instance_A; instance_B; instance_C] empty_world)
    = replicate 4 "i-A".
Proof. repeat split. Qed.

(** ** Reserved user metadata *)

Section ReservedMetadata.

Variable CONF : Config.

Lemma take_length (n : nat) (s : string) :
  (String.length (Str.take n s) ≤ n)%nat.
Proof.
  revert s. induction n as [|n IH]; intros [|c s]; cbn; try lia.
  specialize (IH s). lia.
Qed.

Lemma slice_to_length (limit : Z) (s : string) :
  0 ≤ limit → Z.of_nat (String.length (Str.slice_to limit s)) ≤ limit.
Proof.
  intros Hl. unfold Str.slice_to.
  destruct (Z.ltb_spec limit 0); [lia|].
  pose proof (take_length (Z.to_nat limit) s). lia.
Qed.

Lemma take_drop (n : nat) (s : string) :
  String.append (Str.take n s) (Str.drop n s) = s.
Proof.
  revert s. induction n as [|n IH]; intros [|c s]; try done.
  change (String c (String.append (Str.take n s) (Str.drop n s)) = String c s).
  by rewrite IH.
Qed.

Lemma take_length_min (n : nat) (s : string) :
  String.length (Str.take n s) = (n `min` String.length s)%nat.
Proof.
  revert s. induction n as [|n IH]; intros [|c s]; cbn; try done.
  by rewrite IH.
Qed.

Lemma take_all (n : nat) (s : string) :
  (String.length s ≤ n)%nat → Str.take n s = s.
Proof.
  revert s. induction n as [|n IH]; intros [|c s]; cbn; try done; try lia.
  intros Hl. rewrite IH; [done|lia].
Qed.

(** [v[:limit]] keeps a prefix of [v]: the first [limit] characters, or
    all of [v] when it is not longer than [limit], for a limit that is not
    negative; all but the last [-limit] characters for a negative one. *)
Lemma slice_to_is_prefix (limit : Z) (s : string) :
  let len := Z.of_nat (String.length s) in
  let kept := Z.of_nat (String.length (Str.slice_to limit s)) in
  (∃ rest, s = String.append (Str.slice_to limit s) rest)
  ∧ (0 ≤ limit → kept = Z.min limit len)
  ∧ (limit < 0 → kept = Z.max 0 (len + limit))
  ∧ (len ≤ limit → Str.slice_to limit s = s).
Proof.
  intros len kept. subst len kept. unfold Str.slice_to.
  split; [|split; [|split]].
  - eexists. symmetry. apply take_drop.
  - intros Hl. destruct (Z.ltb_spec limit 0); [lia|].
    rewrite take_length_min. lia.
  - intros Hl. destruct (Z.ltb_spec limit 0); [|lia].
    rewrite take_length_min. lia.
  - intros Hl. destruct (Z.ltb_spec limit 0); [lia|].
    apply take_all. lia.
Qed.

Lemma foldl_insert_lookup {V} (pairs : list (string * V))
    (acc : gmap string V) k v :
  foldl (λ d kv, <[kv.1 := kv.2]> d) acc pairs !! k = Some v →
  (k, v) ∈ pairs ∨ acc !! k = Some v.
Proof.
  revert acc. induction pairs as [|[k' v'] rest IH]; intros acc; cbn.
  - by right.
  - intros [Hin|Hacc]%IH.
    + left. by right.
    + destruct (decide (k' = k)) as [->|Hne].
      * rewrite lookup_insert_eq in Hacc. injection Hacc as ->. left. by left.
      * rewrite lookup_insert_ne in Hacc by done. by right.
Qed.

Lemma foldl_insert_is_Some {V} (pairs : list (string * V))
    (acc : gmap string V) k :
  (∃ v, (k, v) ∈ pairs) ∨ is_Some (acc !! k) →
  is_Some (foldl (λ d kv, <[kv.1 := kv.2]> d) acc pairs !! k).
Proof.
  revert acc. induction pairs as [|[k' v'] rest IH]; intros acc; cbn.
  - intros [[v Hin]|Hacc]; [by apply elem_of_nil in Hin|done].
  - intros [[v Hin]|Hacc]; apply IH.
    + apply elem_of_cons in Hin as [[= -> ->]|Hin].
      * right. rewrite lookup_insert_eq. by eexists.
      * left. by exists v.
    + right. destruct (decide (k' = k)) as [->|Hne].
      * rewrite lookup_insert_eq. by eexists.
      * by rewrite lookup_insert_ne.
Qed.

Lemma py_dict_lookup {V} (pairs : list (string * V)) k v :
  py_dict pairs !! k = Some v → (k, v) ∈ pairs.
Proof.
  intros [H|H]%foldl_insert_lookup; [done|]. by rewrite lookup_empty in H.
Qed.

Lemma py_dict_is_Some {V} (pairs : list (string * V)) k v :
  (k, v) ∈ pairs → is_Some (py_dict pairs !! k).
Proof. intros H. apply foldl_insert_is_Some. left. by exists v. Qed.

(** What a dictionary [md] of one prefix holds. *)
Lemma reserved_md_lookup limit prefix items metadata name a :
  reserved_md limit prefix items metadata !! name = Some a →
  ∃ k v, (k, v) ∈ items
         ∧ Str.startswith k prefix = true
         ∧ name = reserved_name prefix k
         ∧ (name ∉ dom metadata)
         ∧ a = reserved_value limit v.
Proof.
  unfold reserved_md. intros H%py_dict_lookup.
  apply list_elem_of_fmap in H as ([k v] & [= -> ->] & Hin).
  apply list_elem_of_filter in Hin as [Hsel Hin].
  unfold reserved_selected in Hsel. cbn in Hsel.
  apply andb_prop_elim in Hsel as [Hs Hd].
  exists k, v. split; [done|]. split; [by apply Is_true_eq_true|].
  split; [done|]. split; [|done].
  apply negb_prop_elim in Hd. intros Hdom. apply Hd.
  by apply bool_decide_pack.
Qed.

Lemma reserved_md_is_Some limit prefix items metadata k v :
  (k, v) ∈ items →
  Str.startswith k prefix = true →
  reserved_name prefix k ∉ dom metadata →
  is_Some (reserved_md limit prefix items metadata !! reserved_name prefix k).
Proof.
  intros Hin Hs Hd. unfold reserved_md.
  apply (py_dict_is_Some _ _ (reserved_value limit v)).
  apply list_elem_of_fmap. exists (k, v). split; [done|].
  apply list_elem_of_filter. split; [|done].
  unfold reserved_selected. cbn [fst]. rewrite Hs. cbn [andb].
  apply negb_prop_intro. intros Hb. apply Hd. by apply bool_decide_unpack in Hb.
Qed.

Lemma user_metadata_lookup (md_of : string → gmap string atom)
    (prefixes : list string) (acc : gmap string atom) name a :
  foldl (λ um prefix, py_update um (md_of prefix)) acc prefixes !! name = Some a →
  (∃ prefix, prefix ∈ prefixes ∧ md_of prefix !! name = Some a)
  ∨ acc !! name = Some a.
Proof.
  revert acc. induction prefixes as [|prefix rest IH]; intros acc; cbn.
  - by right.
  - intros [(p & Hp & Hl)|Hacc]%IH.
    + left. exists p. split; [by right|done].
    + unfold py_update in Hacc.
      apply lookup_union_Some_raw in Hacc as [Hl|[_ Hl]].
      * left. exists prefix. split; [by left|done].
      * by right.
Qed.

Lemma user_metadata_is_Some (md_of : string → gmap string atom)
    (prefixes : list string) (acc : gmap string atom) name :
  (∃ prefix, prefix ∈ prefixes ∧ is_Some (md_of prefix !! name))
  ∨ is_Some (acc !! name) →
  is_Some (foldl (λ um prefix, py_update um (md_of prefix)) acc prefixes !! name).
Proof.
  revert acc. induction prefixes as [|prefix rest IH]; intros acc; cbn.
  - intros [(p & Hp & _)|Hacc]; [by apply elem_of_nil in Hp|done].
  - intros [(p & Hp & Hl)|Hacc]; apply IH.
    + apply elem_of_cons in Hp as [->|Hp].
      * right. unfold py_update. apply lookup_union_is_Some. by left.
      * left. by exists p.
    + right. unfold py_update. apply lookup_union_is_Some. by right.
Qed.

Lemma base_metadata_no_user_metadata instance :
  base_metadata instance !! "user_metadata" = None.
Proof. reflexivity. Qed.

Lemma get_metadata_user_metadata instance :
  _get_metadata_from_object CONF instance !! "user_metadata"
  = if decide (user_metadata_of CONF instance (base_metadata instance) = ∅)
    then None
    else Some (MUser (user_metadata_of CONF instance (base_metadata instance))).
Proof.
  unfold _get_metadata_from_object, _add_reserved_user_metadata.
  fold (user_metadata_of CONF instance (base_metadata instance)).
  case_decide.
  - apply base_metadata_no_user_metadata.
  - apply lookup_insert_eq.
Qed.

Lemma get_metadata_field instance field :
  field ∈ dom (base_metadata instance) →
  _get_metadata_from_object CONF instance !! field
  = base_metadata instance !! field.
Proof.
  intros Hdom.
  unfold _get_metadata_from_object, _add_reserved_user_metadata.
  case_decide; [done|]. apply lookup_insert_ne. intros <-.
  apply elem_of_dom in Hdom as [x Hx].
  by rewrite base_metadata_no_user_metadata in Hx.
Qed.

(** C10.  The counters made by [make_counter_from_instance] carry the
    dictionary of [_get_metadata_from_object].  In it, each key of the
    metadata of the instance that starts with a configured reserved prefix,
    and whose name once the prefix is stripped and the dots are replaced by
    underscores is not a field of the metadata, is a key of the nested
    [user_metadata] dictionary under that name.  Every entry of
    [user_metadata] comes from such a key and holds its value truncated: a
    value that is not a string as it is, a string as a prefix of itself,
    whole when it is not longer than the configured length and cut to
    exactly that length otherwise, so that the stored strings are no longer
    than that length.  A reserved key whose name is that of a field is left
    out: the fields are as they were and [user_metadata] has no entry of
    that name. *)
Theorem reserved_metadata_is_nested instance :
  let base := base_metadata instance in
  let md := _get_metadata_from_object CONF instance in
  let limit := reserved_metadata_length CONF in
  (∀ ext name type unit vol w,
     ∃ c, final (make_counter_from_instance CONF ext instance name type unit
                   vol w) = Ok c
          ∧ c_resource_metadata c = md)
  ∧ (∀ prefix k v,
     prefix ∈ reserved_metadata_namespace CONF →
     (k, v) ∈ i_metadata instance →
     Str.startswith k prefix = true →
     reserved_name prefix k ∉ dom base →
     ∃ um, md !! "user_metadata" = Some (MUser um)
           ∧ is_Some (um !! reserved_name prefix k))
  ∧ (∀ um name a,
       md !! "user_metadata" = Some (MUser um) →
       um !! name = Some a →
       ∃ prefix k v,
         prefix ∈ reserved_metadata_namespace CONF
         ∧ (k, v) ∈ i_metadata instance
         ∧ Str.startswith k prefix = true
         ∧ name = reserved_name prefix k
         ∧ (name ∉ dom base)
         ∧ match v, a with
           | AStr s0, AStr s =>
               let len := Z.of_nat (String.length s0) in
               let kept := Z.of_nat (String.length s) in
               (∃ rest, s0 = String.append s rest)
               ∧ (0 ≤ limit → kept = Z.min limit len)
               ∧ (len ≤ limit → s = s0)
           | AInt z0, AInt z => z = z0
           | _, _ => False
           end)
  ∧ (0 ≤ limit →
     ∀ um name s,
       md !! "user_metadata" = Some (MUser um) →
       um !! name = Some (AStr s) →
       Z.of_nat (String.length s) ≤ limit)
  ∧ (∀ field,
       field ∈ dom base →
       md !! field = base !! field
       ∧ ∀ um, md !! "user_metadata" = Some (MUser um) → um !! field = None).
Proof.
  intros base md limit.
  assert (∀ um name a,
            md !! "user_metadata" = Some (MUser um) →
            um !! name = Some a →
            ∃ prefix k v,
              prefix ∈ reserved_metadata_namespace CONF
              ∧ (k, v) ∈ i_metadata instance
              ∧ Str.startswith k prefix = true
              ∧ name = reserved_name prefix k
              ∧ (name ∉ dom base)
              ∧ a = reserved_value limit v) as Hfrom.
  { intros um name a Hum Ha. subst md.
    rewrite get_metadata_user_metadata in Hum.
    case_decide; [done|]. injection Hum as <-.
    unfold user_metadata_of in Ha.
    apply user_metadata_lookup in Ha as [(prefix & Hp & Hl)|Hacc].
    - apply reserved_md_lookup in Hl as (k & v & ? & ? & ? & ? & ?).
      by exists prefix, k, v.
    - by rewrite lookup_empty in Hacc. }
  split; [|split; [|split; [|split]]].
  - intros ext name type unit vol w. eexists. split; reflexivity.
  - intros prefix k v Hp Hin Hs Hd.
    assert (is_Some (user_metadata_of CONF instance base
                       !! reserved_name prefix k)) as Hsome.
    { unfold user_metadata_of. apply user_metadata_is_Some. left.
      exists prefix. split; [done|]. by eapply reserved_md_is_Some. }
    exists (user_metadata_of CONF instance base). split; [|done].
    subst md. rewrite get_metadata_user_metadata.
    case_decide as He; [|done].
    fold base in He. rewrite He, lookup_empty in Hsome.
    by destruct Hsome.
  - intros um name a Hum Ha.
    destruct (Hfrom um name a Hum Ha)
      as (prefix & k & v & Hp & Hin & Hs & Hn & Hd & ->).
    exists prefix, k, v. do 5 (split; [done|]).
    destruct v as [s0|z0]; cbn [reserved_value]; [|done].
    destruct (slice_to_is_prefix limit s0) as (Hpre & Hmin & _ & Hall).
    done.
  - intros Hl um name s Hum Hs.
    destruct (Hfrom um name (AStr s) Hum Hs)
      as (prefix & k & v & _ & _ & _ & _ & _ & Hv).
    destruct v as [s'|z]; [|discriminate]. injection Hv as ->.
    by apply slice_to_length.
  - intros field Hdom. split.
    + by apply get_metadata_field.
    + intros um Hum. destruct (um !! field) as [a|] eqn:Ha; [|done].
      destruct (Hfrom um field a Hum Ha) as (? & ? & ? & _ & _ & _ & _ & Hn & _).
      done.
Qed.

End ReservedMetadata.

Example reserved_metadata_example :
  _get_metadata_from_object default_CONF instance_with_metadata
    !! "user_metadata"
  = Some (MUser {[ "stack_id" := AStr "s-1" ]})
  ∧ _get_metadata_from_object default_CONF instance_with_metadata !! "name"
    = Some (mstr "instance-00000001").
Proof. split; reflexivity. Qed.

Lemma reserved_metadata_is_nested_witness :
  reserved_name "metering." "metering.stack.id" = "stack_id"
  ∧ (∃ um,
       _get_metadata_from_object default_CONF instance_with_metadata
         !! "user_metadata" = Some (MUser um)
       ∧ is_Some (um !! "stack_id")
       ∧ um !! "name" = None)
  ∧ _get_metadata_from_object
      {| reserved_metadata_namespace := ["metering."];
         reserved_metadata_length := 3 |}
      instance_with_collision !! "user_metadata"
    = Some (MUser {[ "a_b" := AStr "sec"; "size" := AInt 7 ]})
  ∧ ∃ k s0 rest,
      (k, AStr s0) ∈ i_metadata instance_with_collision
      ∧ s0 = String.append "sec" rest
      ∧ Z.of_nat (String.length "sec")
        = Z.min 3 (Z.of_nat (String.length s0)).
Proof.
  split; [reflexivity|].
  pose proof (reserved_metadata_is_nested default_CONF instance_with_metadata)
    as (_ & Hstored & _ & _ & Hfield).
  split.
  { destruct (Hstored "metering." "metering.stack.id" (AStr "s-1"))
      as (um & Hum & Hsome).
    - by left.
    - by left.
    - reflexivity.
    - by apply not_elem_of_dom.
    - exists um. split; [exact Hum|]. split; [exact Hsome|].
      destruct (Hfield "name") as (_ & Hnone).
      + apply elem_of_dom. by eexists.
      + by apply Hnone. }
  split; [reflexivity|].
  pose proof (reserved_metadata_is_nested
                {| reserved_metadata_namespace := ["metering."];
                   reserved_metadata_length := 3 |}
                instance_with_collision) as (_ & _ & Hfrom & _).
  destruct (Hfrom {[ "a_b" := AStr "sec"; "size" := AInt 7 ]} "a_b"
              (AStr "sec"))
    as (prefix & k & v & _ & Hin & _ & _ & _ & Hv); [reflexivity..|].
  destruct v as [s0|z0]; [|destruct Hv].
  destruct Hv as ((rest & Hrest) & Hmin & _).
  exists k, s0, rest. split; [exact Hin|]. split; [exact Hrest|].
  apply Hmin. cbn. lia.
Defined.

(** * Further properties of the pollsters *)

Section Shapes.

Variable CONF : Config.
Variable ext : Externals.

Lemma InstancePollster_get_counters_run_no_flavor instance w :
  i_flavor instance = None →
  InstancePollster_get_counters CONF ext instance w
  = {| yielded :=
         [ instance_counter CONF instance "instance" TYPE_GAUGE "instance"
             (VInt 1) (isotime ext (trace w)) ];
       final := Raise TypeError;
       world := set_trace (ReadIsotime :: trace w) w |}.
Proof.
  intros Hf. unfold InstancePollster_get_counters. rewrite Hf. run.
  reflexivity.
Qed.

(** What the instance pollster can yield. *)
Lemma InstancePollster_yielded instance w :
  ∃ ts1,
    yielded (InstancePollster_get_counters CONF ext instance w)
    = [ instance_counter CONF instance "instance" TYPE_GAUGE "instance"
          (VInt 1) ts1 ]
    ∨ ∃ f ts2,
        i_flavor instance = Some f
        ∧ yielded (InstancePollster_get_counters CONF ext instance w)
          = [ instance_counter CONF instance "instance" TYPE_GAUGE "instance"
                (VInt 1) ts1;
              instance_counter CONF instance
                (String.append "instance:" (flavor_name f)) TYPE_GAUGE
                "instance" (VInt 1) ts2 ].
Proof.
  destruct (i_flavor instance) as [f|] eqn:Hf.
  - rewrite (InstancePollster_get_counters_run _ _ _ _ _ Hf).
    eexists. right. by exists f, (isotime ext (ReadIsotime :: trace w)).
  - rewrite (InstancePollster_get_counters_run_no_flavor _ _ Hf).
    eexists. by left.
Qed.

(** What the CPU pollster can yield. *)
Lemma CPUPollster_yielded instance w :
  yielded (CPUPollster_get_counters CONF ext instance w) = []
  ∨ ∃ cpu_info cpu_util ts1 ts2,
      inspect_cpus ext (trace w) (_instance_name instance) = Ok cpu_info
      ∧ yielded (CPUPollster_get_counters CONF ext instance w)
        = [ instance_counter CONF instance "cpu_util" TYPE_GAUGE "%"
              (VFloat cpu_util) ts1;
            instance_counter CONF instance "cpu" TYPE_CUMULATIVE "ns"
              (VInt (cpu_time cpu_info)) ts2 ].
Proof.
  rewrite CPUPollster_get_counters_run. unfold cpu_outcome.
  destruct (inspect_cpus _ _ _) as [cpu_info|e]; [|by left].
  destruct (cpu_util_of _ _ _) as [v|e]; [|by left].
  right. by eexists cpu_info, v, _, _.
Qed.

(** What the disk pollster can yield. *)
Lemma DiskIOPollster_yielded instance w :
  yielded (DiskIOPollster_get_counters CONF ext instance w) = []
  ∨ ∃ d tr,
      yielded (DiskIOPollster_get_counters CONF ext instance w)
      = disk_counters CONF ext instance d tr.
Proof.
  rewrite DiskIOPollster_get_counters_run. unfold disk_outcome.
  destruct (final _) as [d|e]; [|by left].
  right. by eexists d, _.
Qed.

(** What the network pollster can yield. *)
Lemma net_counters_elem instance items tr c :
  c ∈ net_counters ext instance items tr →
  ∃ item name unit vol ts,
    item ∈ items
    ∧ (name, unit) ∈ [ ("network.incoming.bytes", "B");
                       ("network.outgoing.bytes", "B");
                       ("network.incoming.packets", "packet");
                       ("network.outgoing.packets", "packet") ]
    ∧ c = vnic_counter instance name TYPE_CUMULATIVE unit vol item.1 ts.
Proof.
  revert tr. induction items as [|item rest IH]; intros tr; cbn [net_counters].
  - by intros ?%elem_of_nil.
  - intros [Hc|Hc]%elem_of_app.
    + unfold vnic_counters_at in Hc.
      repeat (apply elem_of_cons in Hc as [->|Hc]);
        [| | | |by apply elem_of_nil in Hc];
        (eexists item, _, _, _, _; split; [by left|]; split; [|reflexivity]).
      * by left.
      * right. by left.
      * do 2 right. by left.
      * do 3 right. by left.
    + destruct (IH _ Hc) as (it & name & unit & vol & ts & Hin & Hnu & ->).
      exists it, name, unit, vol, ts. split; [by right|done].
Qed.

(** X1.  Every counter that a pollster yields has a name that the pollster
    declares: one of the four disk names, [cpu] or [cpu_util], one of the
    four network names, and for the instance pollster [instance] or a name
    that starts with [instance:]. *)
Theorem yielded_names_are_declared instance w c :
  (c ∈ yielded (InstancePollster_get_counters CONF ext instance w) →
   c_name c = "instance" ∨ Str.startswith (c_name c) "instance:" = true)
  ∧ (c ∈ yielded (DiskIOPollster_get_counters CONF ext instance w) →
     c_name c ∈ DiskIOPollster_get_counter_names)
  ∧ (c ∈ yielded (CPUPollster_get_counters CONF ext instance w) →
     c_name c ∈ CPUPollster_get_counter_names)
  ∧ (c ∈ yielded (NetPollster_get_counters ext instance w) →
     c_name c ∈ NetPollster_get_counter_names).
Proof.
  split; [|split; [|split]].
  - destruct (InstancePollster_yielded instance w)
      as (ts1 & [-> | (f & ts2 & _ & ->)]).
    + intros ->%list_elem_of_singleton. by left.
    + intros [->|[->|[]%elem_of_nil]%elem_of_cons]%elem_of_cons;
        [by left|right].
      cbn [c_name instance_counter]. unfold Str.startswith. cbn.
      repeat (destruct (Ascii.ascii_dec _ _); [|done]). by destruct (flavor_name f).
  - destruct (DiskIOPollster_yielded instance w) as [-> | (d & tr & ->)].
    + by intros ?%elem_of_nil.
    + unfold disk_counters, DiskIOPollster_get_counter_names. intros Hc.
      repeat (apply elem_of_cons in Hc as [->|Hc]);
        [| | | |by apply elem_of_nil in Hc]; cbn [c_name instance_counter].
      * by left.
      * right. by left.
      * do 2 right. by left.
      * do 3 right. by left.
  - destruct (CPUPollster_yielded instance w)
      as [-> | (cpu_info & v & ts1 & ts2 & _ & ->)].
    + by intros ?%elem_of_nil.
    + unfold CPUPollster_get_counter_names.
      intros [->|[->|[]%elem_of_nil]%elem_of_cons]%elem_of_cons;
        cbn [c_name instance_counter]; [right|]; by left.
  - rewrite NetPollster_get_counters_run. cbn [yielded].
    intros (item & name & unit & vol & ts & _ & Hnu & ->)%net_counters_elem.
    cbn [c_name vnic_counter]. unfold NetPollster_get_counter_names.
    repeat (apply elem_of_cons in Hnu as [[= -> ->]|Hnu]);
      [| | | |by apply elem_of_nil in Hnu].
    + by left.
    + do 2 right. by left.
    + right. by left.
    + do 3 right. by left.
Qed.

End Shapes.

Section Kinds.

Variable CONF : Config.
Variable ext : Externals.

(** X2.  Kind and unit go with the name.  The instance pollster yields
    gauges of unit [instance] and volume 1; the disk pollster cumulative
    counters in requests or bytes; the CPU pollster the gauge [cpu_util] in
    percent and the cumulative [cpu] in nanoseconds; the network pollster
    cumulative counters in bytes or packets.  No pollster yields a delta. *)
Theorem yielded_kinds_and_units instance w c :
  (c ∈ yielded (InstancePollster_get_counters CONF ext instance w) →
   c_type c = TYPE_GAUGE ∧ c_unit c = "instance" ∧ c_volume c = VInt 1)
  ∧ (c ∈ yielded (DiskIOPollster_get_counters CONF ext instance w) →
     (c_name c, c_type c, c_unit c)
     ∈ [ ("disk.read.requests", TYPE_CUMULATIVE, "request");
         ("disk.read.bytes", TYPE_CUMULATIVE, "B");
         ("disk.write.requests", TYPE_CUMULATIVE, "request");
         ("disk.write.bytes", TYPE_CUMULATIVE, "B") ])
  ∧ (c ∈ yielded (CPUPollster_get_counters CONF ext instance w) →
     (c_name c, c_type c, c_unit c)
     ∈ [ ("cpu_util", TYPE_GAUGE, "%"); ("cpu", TYPE_CUMULATIVE, "ns") ])
  ∧ (c ∈ yielded (NetPollster_get_counters ext instance w) →
     (c_name c, c_type c, c_unit c)
     ∈ [ ("network.incoming.bytes", TYPE_CUMULATIVE, "B");
         ("network.outgoing.bytes", TYPE_CUMULATIVE, "B");
         ("network.incoming.packets", TYPE_CUMULATIVE, "packet");
         ("network.outgoing.packets", TYPE_CUMULATIVE, "packet") ]).
Proof.
  split; [|split; [|split]].
  - destruct (InstancePollster_yielded CONF ext instance w)
      as (ts1 & [-> | (f & ts2 & _ & ->)]).
    + by intros ->%list_elem_of_singleton.
    + by intros [->|[->|[]%elem_of_nil]%elem_of_cons]%elem_of_cons.
  - destruct (DiskIOPollster_yielded CONF ext instance w) as [-> | (d & tr & ->)].
    + by intros ?%elem_of_nil.
    + unfold disk_counters. intros Hc.
      repeat (apply elem_of_cons in Hc as [->|Hc]);
        [| | | |by apply elem_of_nil in Hc];
        cbn [c_name c_type c_unit instance_counter].
      * by left.
      * right. by left.
      * do 2 right. by left.
      * do 3 right. by left.
  - destruct (CPUPollster_yielded CONF ext instance w)
      as [-> | (cpu_info & v & ts1 & ts2 & _ & ->)].
    + by intros ?%elem_of_nil.
    + intros [->|[->|[]%elem_of_nil]%elem_of_cons]%elem_of_cons;
        cbn [c_name c_type c_unit instance_counter]; [|right]; by left.
  - rewrite NetPollster_get_counters_run. cbn [yielded].
    intros (item & name & unit & vol & ts & _ & Hnu & ->)%net_counters_elem.
    cbn [c_name c_type c_unit vnic_counter].
    repeat (apply elem_of_cons in Hnu as [[= -> ->]|Hnu]);
      [| | | |by apply elem_of_nil in Hnu].
    + by left.
    + right. by left.
    + do 2 right. by left.
    + do 3 right. by left.
Qed.

(** X3.  Every counter carries the user and the tenant of the instance
    polled.  The counters of the instance, disk and CPU pollsters have the
    id of the instance as resource id and the dictionary of
    [_get_metadata_from_object] as metadata; those of the network pollster
    have the resource id of one of the vNICs that the inspector reported. *)
Theorem yielded_identity instance w c :
  let of_instance c :=
    c_user_id c = i_user_id instance
    ∧ c_project_id c = i_tenant_id instance
    ∧ c_resource_id c = i_id instance
    ∧ c_resource_metadata c = _get_metadata_from_object CONF instance in
  (c ∈ yielded (InstancePollster_get_counters CONF ext instance w) →
   of_instance c)
  ∧ (c ∈ yielded (DiskIOPollster_get_counters CONF ext instance w) →
     of_instance c)
  ∧ (c ∈ yielded (CPUPollster_get_counters CONF ext instance w) →
     of_instance c)
  ∧ (c ∈ yielded (NetPollster_get_counters ext instance w) →
     c_user_id c = i_user_id instance
     ∧ c_project_id c = i_tenant_id instance
     ∧ ∃ item,
         item ∈ produced (inspect_vnics ext (trace w) (_instance_name instance))
         ∧ c_resource_id c = vnic_rid instance item.1).
Proof.
  intros of_instance. subst of_instance. cbn beta.
  split; [|split; [|split]].
  - destruct (InstancePollster_yielded CONF ext instance w)
      as (ts1 & [-> | (f & ts2 & _ & ->)]).
    + by intros ->%list_elem_of_singleton.
    + by intros [->|[->|[]%elem_of_nil]%elem_of_cons]%elem_of_cons.
  - destruct (DiskIOPollster_yielded CONF ext instance w) as [-> | (d & tr & ->)].
    + by intros ?%elem_of_nil.
    + unfold disk_counters. intros Hc.
      repeat (apply elem_of_cons in Hc as [->|Hc]);
        [| | | |by apply elem_of_nil in Hc]; done.
  - destruct (CPUPollster_yielded CONF ext instance w)
      as [-> | (cpu_info & v & ts1 & ts2 & _ & ->)].
    + by intros ?%elem_of_nil.
    + by intros [->|[->|[]%elem_of_nil]%elem_of_cons]%elem_of_cons.
  - rewrite NetPollster_get_counters_run. cbn [yielded].
    intros (item & name & unit & vol & ts & Hin & _ & ->)%net_counters_elem.
    split; [done|]. split; [done|]. by exists item.
Qed.

End Kinds.

Lemma yielded_names_are_declared_witness :
  cpu_counter_1
  ∈ yielded (CPUPollster_get_counters default_CONF
               (steady_ext cpu_4_5000 1000004) instance_1 empty_world)
  ∧ c_name cpu_counter_1 ∈ CPUPollster_get_counter_names.
Proof.
  assert (cpu_counter_1
          ∈ yielded (CPUPollster_get_counters default_CONF
                       (steady_ext cpu_4_5000 1000004) instance_1 empty_world))
    as Hin by (right; left).
  split; [exact Hin|].
  pose proof (yielded_names_are_declared default_CONF
                (steady_ext cpu_4_5000 1000004) instance_1 empty_world
                cpu_counter_1) as (_ & _ & H & _).
  exact (H Hin).
Defined.

Lemma yielded_kinds_and_units_witness :
  (c_name cpu_counter_1, c_type cpu_counter_1, c_unit cpu_counter_1)
  ∈ [ ("cpu_util", TYPE_GAUGE, "%"); ("cpu", TYPE_CUMULATIVE, "ns") ].
Proof.
  pose proof (yielded_kinds_and_units default_CONF
                (steady_ext cpu_4_5000 1000004) instance_1 empty_world
                cpu_counter_1) as (_ & _ & H & _).
  apply H. right; left.
Defined.

Lemma yielded_identity_witness :
  c_resource_id cpu_counter_1 = "i-1" ∧ c_project_id cpu_counter_1 = "tenant".
Proof.
  pose proof (yielded_identity default_CONF
                (steady_ext cpu_4_5000 1000004) instance_1 empty_world
                cpu_counter_1) as (_ & _ & H & _).
  destruct H as (_ & Hp & Hr & _); [right; left|].
  split; [exact Hr|exact Hp].
Defined.

(** ** What a collection changes *)

Section Frame.

Variable CONF : Config.
Variable ext : Externals.

Lemma inspector_calls_cons e tr :
  inspector_calls (e :: tr)
  = if is_inspector_call e then e :: inspector_calls tr else inspector_calls tr.
Proof.
  unfold inspector_calls. rewrite filter_cons.
  destruct (is_inspector_call e); by case_decide.
Qed.

Lemma inspector_calls_net_trace (items : list (Interface * InterfaceStats)) tr :
  inspector_calls (net_trace items tr) = inspector_calls tr.
Proof.
  revert tr. induction items as [|item rest IH]; intros tr; [done|].
  cbn [net_trace]. rewrite IH. unfold four_isotime.
  by rewrite !inspector_calls_cons.
Qed.

(** The world after a collection of the disk pollster. *)
Lemma DiskIOPollster_world instance w :
  let o := DiskIOPollster_get_counters CONF ext instance w in
  let instance_name := _instance_name instance in
  utilization_map (world o) = utilization_map w
  ∧ (∀ key, key ≠ CACHE_KEY_DISK → cache (world o) !! key = cache w !! key)
  ∧ (∀ other, other ≠ instance_name → cached other (world o) = cached other w)
  ∧ inspector_calls (trace (world o))
    = match cached instance_name w with
      | Some _ => inspector_calls (trace w)
      | None => CallInspectDisks instance_name :: inspector_calls (trace w)
      end.
Proof.
  intros o instance_name. subst o. rewrite DiskIOPollster_get_counters_run.
  fold instance_name.
  destruct (cached instance_name w) as [d|] eqn:Hc.
  - rewrite (populate_cache_hit _ _ _ _ _ Hc). unfold disk_outcome.
    cbn [final world trace set_trace cache utilization_map].
    by rewrite !inspector_calls_cons.
  - rewrite (populate_cache_miss _ _ _ _ Hc).
    assert (∀ (data : gmap (option string) DiskIOData
                      → gmap (option string) DiskIOData) other,
              (∀ c, data c !! other = c !! other) →
              <[CACHE_KEY_DISK := data (default ∅ (cache w !! CACHE_KEY_DISK))]>
                (cache w) !! CACHE_KEY_DISK
              ≫= (λ i_cache, i_cache !! other) = cached other w) as Hkeep.
    { intros data other Hdata. rewrite (lookup_insert_eq (cache w)). cbn.
      rewrite Hdata. unfold cached.
      by destruct (cache w !! CACHE_KEY_DISK). }
    destruct (failure _); unfold disk_outcome, cached;
      cbn [final world trace set_trace cache utilization_map].
    + split; [done|]. split; [by intros; apply lookup_insert_ne|].
      split; [|by rewrite inspector_calls_cons].
      intros other _. exact (Hkeep (λ c, c) other (λ c, eq_refl)).
    + split; [done|]. split; [by intros; apply lookup_insert_ne|].
      split; [|by rewrite !inspector_calls_cons].
      intros other Hne.
      apply (Hkeep (λ c, <[instance_name := _]> c)).
      intros c. by apply lookup_insert_ne.
Qed.

(** X4.  What a collection leaves alone.  The instance and the network
    pollsters change neither the cycle cache nor the tracker.  The CPU
    pollster leaves the cache alone and, in the tracker, every id other
    than that of the instance polled.  The disk pollster leaves the
    tracker alone and, in the cache, every other namespace and the
    aggregate of every other instance name. *)
Theorem collections_frame instance w :
  let instances := InstancePollster_get_counters CONF ext instance w in
  let disk := DiskIOPollster_get_counters CONF ext instance w in
  let cpu := CPUPollster_get_counters CONF ext instance w in
  let net := NetPollster_get_counters ext instance w in
  (cache (world instances) = cache w
   ∧ utilization_map (world instances) = utilization_map w)
  ∧ (cache (world net) = cache w
     ∧ utilization_map (world net) = utilization_map w)
  ∧ (cache (world cpu) = cache w
     ∧ ∀ other, other ≠ i_id instance →
         utilization_map (world cpu) !! other = utilization_map w !! other)
  ∧ (utilization_map (world disk) = utilization_map w
     ∧ (∀ key, key ≠ CACHE_KEY_DISK →
          cache (world disk) !! key = cache w !! key)
     ∧ (∀ other, other ≠ _instance_name instance →
          cached other (world disk) = cached other w)).
Proof.
  intros instances disk cpu net. subst instances disk cpu net.
  split; [|split; [|split]].
  - destruct (i_flavor instance) as [f|] eqn:Hf.
    + by rewrite (InstancePollster_get_counters_run _ _ _ _ _ Hf).
    + by rewrite (InstancePollster_get_counters_run_no_flavor _ _ _ _ Hf).
  - by rewrite NetPollster_get_counters_run.
  - rewrite CPUPollster_get_counters_run. unfold cpu_outcome.
    destruct (inspect_cpus _ _ _) as [cpu_info|e]; [|done].
    destruct (cpu_util_of _ _ _);
      (split; [done|]; intros other Hne; cbn; by rewrite lookup_insert_ne).
  - destruct (DiskIOPollster_world instance w) as (Hu & Hk & Hc & _). done.
Qed.

(** X5.  The calls of the inspector made by a collection.  The instance
    pollster makes none.  The CPU pollster makes one call of
    [inspect_cpus] and the network pollster one call of [inspect_vnics],
    for the name of the instance.  The disk pollster makes one call of
    [inspect_disks] when the cache has no aggregate for that name, and
    none when it has one. *)
Theorem collections_inspector_calls instance w :
  let instance_name := _instance_name instance in
  inspector_calls
    (trace (world (InstancePollster_get_counters CONF ext instance w)))
  = inspector_calls (trace w)
  ∧ inspector_calls
      (trace (world (CPUPollster_get_counters CONF ext instance w)))
    = CallInspectCpus instance_name :: inspector_calls (trace w)
  ∧ inspector_calls
      (trace (world (NetPollster_get_counters ext instance w)))
    = CallInspectVnics instance_name :: inspector_calls (trace w)
  ∧ inspector_calls
      (trace (world (DiskIOPollster_get_counters CONF ext instance w)))
    = match cached instance_name w with
      | Some _ => inspector_calls (trace w)
      | None => CallInspectDisks instance_name :: inspector_calls (trace w)
      end.
Proof.
  intros instance_name. split; [|split; [|split]].
  - destruct (i_flavor instance) as [f|] eqn:Hf.
    + rewrite (InstancePollster_get_counters_run _ _ _ _ _ Hf).
      cbn [world trace set_trace]. by rewrite !inspector_calls_cons.
    + rewrite (InstancePollster_get_counters_run_no_flavor _ _ _ _ Hf).
      cbn [world trace set_trace]. by rewrite !inspector_calls_cons.
  - rewrite CPUPollster_get_counters_run. unfold cpu_outcome.
    fold instance_name.
    destruct (inspect_cpus _ _ _) as [cpu_info|e];
      [destruct (cpu_util_of _ _ _)|];
      cbn [world trace set_trace]; by rewrite !inspector_calls_cons.
  - rewrite NetPollster_get_counters_run. cbn [world trace set_trace].
    by rewrite inspector_calls_net_trace, inspector_calls_cons.
  - by destruct (DiskIOPollster_world instance w) as (_ & _ & _ & H).
Qed.

End Frame.

Lemma collections_frame_witness :
  utilization_map
    (world (CPUPollster_get_counters default_CONF
              (steady_ext cpu_4_5000 1000004) instance_A
              (tracked_world 1000 1000000))) !! "i-1"
  = Some (1000, 1000000).
Proof.
  pose proof (collections_frame default_CONF (steady_ext cpu_4_5000 1000004)
                instance_A (tracked_world 1000 1000000))
    as (_ & _ & (_ & H) & _).
  rewrite (H "i-1"); [reflexivity|discriminate].
Defined.

(** ** The disk aggregate *)

Section DiskAggregate.

Variable CONF : Config.
Variable ext : Externals.

Lemma foldl_add_disk acc disks :
  foldl add_disk acc disks
  = {| r_bytes := r_bytes acc + disk_sum read_bytes disks;
       r_requests := r_requests acc + disk_sum read_requests disks;
       w_bytes := w_bytes acc + disk_sum write_bytes disks;
       w_requests := w_requests acc + disk_sum write_requests disks |}.
Proof.
  revert acc. induction disks as [|item rest IH]; intros acc.
  - destruct acc; cbn. f_equal; lia.
  - cbn [foldl]. rewrite IH. unfold disk_sum, add_disk. cbn.
    f_equal; lia.
Qed.

Lemma disk_sum_Permutation field (disks disks' : list (Disk * DiskStats)) :
  disks ≡ₚ disks' → disk_sum field disks = disk_sum field disks'.
Proof. unfold disk_sum. induction 1; cbn; lia. Qed.

(** X6.  When the cache has no aggregate for the instance and the
    enumeration of its disks completes, the disk pollster yields, in the
    order read requests, read bytes, write requests, write bytes, the sums
    of these fields over the disks enumerated, and leaves these sums in the
    cache.  The sums do not depend on the order of the disks, and they are
    all 0 for an instance without disks. *)
Theorem disk_counters_are_sums instance w disks :
  let instance_name := _instance_name instance in
  let o := DiskIOPollster_get_counters CONF ext instance w in
  cached instance_name w = None →
  inspect_disks ext (trace w) instance_name
  = {| produced := disks; failure := None |} →
  final o = Ok tt
  ∧ c_volume <$> yielded o
    = [ VInt (disk_sum read_requests disks); VInt (disk_sum read_bytes disks);
        VInt (disk_sum write_requests disks);
        VInt (disk_sum write_bytes disks) ]
  ∧ cached instance_name (world o) = Some (disk_totals disks)
  ∧ (∀ disks', disks ≡ₚ disks' → disk_totals disks' = disk_totals disks)
  ∧ (disks = [] → disk_totals disks = DiskIOData_zero).
Proof.
  intros instance_name o Hc Hd. subst o.
  rewrite DiskIOPollster_get_counters_run. fold instance_name.
  rewrite (populate_cache_miss _ _ _ _ Hc), Hd. cbn [produced failure].
  rewrite foldl_add_disk. unfold disk_outcome.
  cbn [final world yielded trace set_trace]. split; [done|]. split; [done|].
  split; [|split].
  - unfold cached. cbn [cache set_trace world].
    rewrite (lookup_insert_eq (cache w)). cbn.
    by rewrite lookup_insert_eq.
  - intros disks' Hp. unfold disk_totals.
    by rewrite !(disk_sum_Permutation _ _ _ Hp).
  - by intros ->.
Qed.

(** X7.  When the cache has no aggregate for the instance and the
    enumeration of its disks fails, at once or after some disks, the error
    leaves the disk pollster: it yields nothing, what it had summed is
    dropped, and the cache holds the [diskio] namespace without an
    aggregate for the instance. *)
Theorem disk_enumeration_failure_escapes instance w e :
  let instance_name := _instance_name instance in
  let o := DiskIOPollster_get_counters CONF ext instance w in
  cached instance_name w = None →
  failure (inspect_disks ext (trace w) instance_name) = Some e →
  yielded o = []
  ∧ final o = Raise e
  ∧ cached instance_name (world o) = None
  ∧ is_Some (cache (world o) !! CACHE_KEY_DISK).
Proof.
  intros instance_name o Hc He. subst o.
  rewrite DiskIOPollster_get_counters_run. fold instance_name.
  rewrite (populate_cache_miss _ _ _ _ Hc), He. unfold disk_outcome.
  cbn [final world yielded cache]. split; [done|]. split; [done|].
  unfold cached in *. cbn [cache]. rewrite (lookup_insert_eq (cache w)).
  split; [|by eexists]. cbn.
  destruct (cache w !! CACHE_KEY_DISK); [exact Hc|done].
Qed.

End DiskAggregate.

Lemma disk_counters_are_sums_witness :
  cached (Some "instance-A") empty_world = None
  ∧ c_volume
      <$> yielded (DiskIOPollster_get_counters default_CONF
                     (ext_failing_for None []) instance_A empty_world)
    = [VInt 11; VInt 4608; VInt 7; VInt 3072].
Proof.
  split; [reflexivity|].
  pose proof (disk_counters_are_sums default_CONF (ext_failing_for None [])
                instance_A empty_world two_disks eq_refl eq_refl)
    as (_ & H & _).
  exact H.
Defined.

Lemma disk_enumeration_failure_escapes_witness :
  produced (inspect_disks ext_failing_midway [] (Some "instance-A"))
  = [ ({| device := "vda" |}, vda_stats) ]
  ∧ final (DiskIOPollster_get_counters default_CONF ext_failing_midway
             instance_A empty_world)
    = Raise (InspectorError "lost connection")
  ∧ cached (Some "instance-A")
      (world (DiskIOPollster_get_counters default_CONF ext_failing_midway
                instance_A empty_world)) = None.
Proof.
  split; [reflexivity|].
  pose proof (disk_enumeration_failure_escapes default_CONF ext_failing_midway
                instance_A empty_world (InspectorError "lost connection")
                eq_refl eq_refl) as (_ & Hf & Hc & _).
  split; [exact Hf|exact Hc].
Defined.

(** ** More on the CPU pollster *)

Section CPUMore.

Variable CONF : Config.
Variable ext : Externals.

Lemma utilization_percent_zero_cores (time_used elapsed : Z) :
  utilization_percent 0 time_used elapsed = Raise ZeroDivisionError.
Proof. reflexivity. Qed.

(** X8.  With a previous entry in the tracker and an inspector that reports
    0 cores, [get_cpu_util] raises [ZeroDivisionError]; the CPU pollster
    yields nothing for the instance, ends normally, and the tracker holds
    the new observation all the same. *)
Theorem zero_cores_yield_nothing instance w cpu_info prev_time prev_timestamp :
  let tr := CallInspectCpus (_instance_name instance) :: trace w in
  let o := CPUPollster_get_counters CONF ext instance w in
  inspect_cpus ext (trace w) (_instance_name instance) = Ok cpu_info →
  utilization_map w !! i_id instance = Some (prev_time, prev_timestamp) →
  cpu_number cpu_info = 0 →
  final (get_cpu_util ext instance cpu_info (set_trace tr w))
  = Raise ZeroDivisionError
  ∧ yielded o = []
  ∧ final o = Ok tt
  ∧ utilization_map (world o) !! i_id instance
    = Some (cpu_time cpu_info, datetime_now ext tr).
Proof.
  intros tr o Hr Hprev Hz. subst o.
  rewrite get_cpu_util_run, CPUPollster_get_counters_run, Hr.
  unfold cpu_outcome. cbn [final set_trace trace utilization_map].
  rewrite Hprev. cbn [cpu_util_of]. rewrite Hz, utilization_percent_zero_cores.
  cbn. by rewrite lookup_insert_eq.
Qed.

(** X9.  The CPU pollster yields both of its counters or none.  When the
    inspector answers, either the utilisation has a value and the pollster
    yields [cpu_util] with that value followed by [cpu] with the cumulative
    time that the inspector reported, or the utilisation raises and the
    cumulative time is not yielded either. *)
Theorem cpu_counters_all_or_nothing instance w cpu_info :
  let tr := CallInspectCpus (_instance_name instance) :: trace w in
  let o := CPUPollster_get_counters CONF ext instance w in
  inspect_cpus ext (trace w) (_instance_name instance) = Ok cpu_info →
  match final (get_cpu_util ext instance cpu_info (set_trace tr w)) with
  | Ok v =>
      name_volume <$> yielded o
      = [("cpu_util", VFloat v); ("cpu", VInt (cpu_time cpu_info))]
  | Raise _ => yielded o = []
  end
  ∧ final o = Ok tt.
Proof.
  intros tr o Hr. subst o.
  rewrite get_cpu_util_run, CPUPollster_get_counters_run, Hr.
  unfold cpu_outcome. cbn [final set_trace trace utilization_map]. fold tr.
  by destruct (cpu_util_of _ _ _).
Qed.

(** X10.  The baseline of an observation is the observation before it.  For
    two successive calls of [get_cpu_util] for an instance, with a call for
    another instance in between, the second returns the formula evaluated
    on the cumulative time of the first and on the time elapsed between the
    two readings of the clock, whatever the tracker held at first and
    whether or not the first call raised. *)
Theorem successive_observations instance other w cpu_info1 cpu_info' cpu_info2 :
  let o1 := get_cpu_util ext instance cpu_info1 w in
  let o' := get_cpu_util ext other cpu_info' (world o1) in
  let o2 := get_cpu_util ext instance cpu_info2 (world o') in
  let now1 := datetime_now ext (trace w) in
  let now2 := datetime_now ext (ReadNow :: ReadNow :: trace w) in
  i_id other ≠ i_id instance →
  final o2
  = utilization_percent (cpu_number cpu_info2)
      (time_used_of (cpu_time cpu_info1) cpu_info2)
      (elapsed_of (datetime_sub now2 now1)).
Proof.
  intros o1 o' o2 now1 now2 Hne. subst o1 o' o2.
  rewrite !get_cpu_util_run. cbn [final world trace utilization_map].
  rewrite lookup_insert_ne by done. by rewrite lookup_insert_eq.
Qed.

(** X11.  The tracker never forgets.  A collection of the CPU pollster adds
    the id of the instance to the ids tracked when the inspector answers
    and changes nothing when it raises; after a pass over any instances,
    every id tracked before is still tracked. *)
Theorem tracker_only_grows instance w (instances : list Instance) :
  let o := CPUPollster_get_counters CONF ext instance w in
  (∀ cpu_info,
     inspect_cpus ext (trace w) (_instance_name instance) = Ok cpu_info →
     dom (utilization_map (world o))
     = {[ i_id instance ]} ∪ dom (utilization_map w))
  ∧ (∀ e,
       inspect_cpus ext (trace w) (_instance_name instance) = Raise e →
       utilization_map (world o) = utilization_map w)
  ∧ dom (utilization_map w)
    ⊆ dom (utilization_map
             (world (poll_instances (CPUPollster_get_counters CONF ext)
                       instances w))).
Proof.
  intros o. subst o. split; [|split].
  - intros cpu_info Hr. rewrite CPUPollster_get_counters_run, Hr.
    unfold cpu_outcome.
    destruct (cpu_util_of _ _ _); cbn [world utilization_map];
      by rewrite dom_insert_L.
  - intros e Hr. by rewrite CPUPollster_get_counters_run, Hr.
  - revert w. induction instances as [|i rest IH]; intros w; [done|].
    cbn [poll_instances]. unfold mbind, M_bind.
    pose proof (CPUPollster_never_raises CONF ext i w) as Hok.
    assert (dom (utilization_map w)
            ⊆ dom (utilization_map
                     (world (CPUPollster_get_counters CONF ext i w)))) as Hsub.
    { rewrite CPUPollster_get_counters_run. unfold cpu_outcome.
      destruct (inspect_cpus _ _ _); [|done].
      destruct (cpu_util_of _ _ _); cbn [world utilization_map];
        rewrite dom_insert_L; set_solver. }
    destruct (CPUPollster_get_counters CONF ext i w) as [ys r w1].
    cbn in Hok, Hsub. subst r. specialize (IH w1).
    destruct (poll_instances _ rest w1) as [ys' r' w2]. cbn in *.
    set_solver.
Qed.

(** X12.  Two observations a whole number of days apart give an elapsed
    time of 0: with a previous entry taken [d] days before the reading of
    the clock, the CPU pollster yields nothing for the instance. *)
Theorem whole_days_apart_yield_nothing instance w cpu_info
    prev_time prev_timestamp (d : Z) :
  let tr := CallInspectCpus (_instance_name instance) :: trace w in
  let o := CPUPollster_get_counters CONF ext instance w in
  inspect_cpus ext (trace w) (_instance_name instance) = Ok cpu_info →
  utilization_map w !! i_id instance = Some (prev_time, prev_timestamp) →
  datetime_now ext tr - prev_timestamp = d * 86400 * 10 ^ 6 →
  elapsed_of (datetime_sub (datetime_now ext tr) prev_timestamp) = 0
  ∧ yielded o = []
  ∧ final o = Ok tt.
Proof.
  intros tr o Hr Hprev Hd. subst o.
  assert (elapsed_of (datetime_sub (datetime_now ext tr) prev_timestamp) = 0)
    as Hzero.
  { rewrite (datetime_sub_components _ _ d 0 0); [done|lia|lia|lia]. }
  split; [done|].
  rewrite CPUPollster_get_counters_run, Hr. unfold cpu_outcome.
  rewrite Hprev. cbn [cpu_util_of]. fold tr. rewrite Hzero.
  by destruct (utilization_percent_zero_elapsed (cpu_number cpu_info)
                 (time_used_of prev_time cpu_info)) as [-> | ->].
Qed.

End CPUMore.

Lemma zero_cores_yield_nothing_witness :
  yielded (CPUPollster_get_counters default_CONF (steady_ext cpu_0_5000 1000004)
             instance_1 (tracked_world 1000 1000000)) = []
  ∧ utilization_map
      (world (CPUPollster_get_counters default_CONF
                (steady_ext cpu_0_5000 1000004) instance_1
                (tracked_world 1000 1000000))) !! "i-1"
    = Some (5000, 1000004).
Proof.
  pose proof (zero_cores_yield_nothing default_CONF
                (steady_ext cpu_0_5000 1000004) instance_1
                (tracked_world 1000 1000000) cpu_0_5000 1000 1000000
                eq_refl eq_refl eq_refl) as (_ & Hy & _ & Hm).
  split; [exact Hy|exact Hm].
Defined.

Lemma cpu_counters_all_or_nothing_witness :
  name_volume
    <$> yielded (CPUPollster_get_counters default_CONF
                   (steady_ext cpu_4_5000 1000004) instance_1
                   (tracked_world 1000 1000000))
  = [("cpu_util", VFloat 25); ("cpu", VInt 5000)].
Proof.
  pose proof (cpu_counters_all_or_nothing default_CONF
                (steady_ext cpu_4_5000 1000004) instance_1
                (tracked_world 1000 1000000) cpu_4_5000 eq_refl) as (H & _).
  exact H.
Defined.

Lemma successive_observations_witness :
  final (get_cpu_util ticking_ext instance_1 cpu_4_9000
           (world (get_cpu_util ticking_ext instance_A cpu_4_5000
                     (world (get_cpu_util ticking_ext instance_1 cpu_4_5000
                               empty_world)))))
  = Ok 12.5%float.
Proof.
  rewrite (successive_observations ticking_ext instance_1 instance_A
             empty_world cpu_4_5000 cpu_4_5000 cpu_4_9000);
    [reflexivity|discriminate].
Defined.

Lemma tracker_only_grows_witness :
  dom (utilization_map
         (world (CPUPollster_get_counters default_CONF
                   (steady_ext cpu_4_5000 1000004) instance_A
                   (tracked_world 1000 1000000))))
  = {[ "i-A" ]} ∪ {[ "i-1" ]}.
Proof.
  pose proof (tracker_only_grows default_CONF (steady_ext cpu_4_5000 1000004)
                instance_A (tracked_world 1000 1000000) []) as (H & _).
  rewrite (H cpu_4_5000 eq_refl). unfold tracked_world.
  cbn [utilization_map]. by rewrite dom_singleton_L.
Defined.

Lemma whole_days_apart_yield_nothing_witness :
  172801000000 - 1000000 = 2 * 86400 * 10 ^ 6
  ∧ yielded (CPUPollster_get_counters default_CONF
               (steady_ext cpu_4_5000 172801000000) instance_1
               (tracked_world 1000 1000000)) = [].
Proof.
  split; [reflexivity|].
  pose proof (whole_days_apart_yield_nothing default_CONF
                (steady_ext cpu_4_5000 172801000000) instance_1
                (tracked_world 1000 1000000) cpu_4_5000 1000 1000000 2
                eq_refl eq_refl eq_refl) as (_ & H & _).
  exact H.
Defined.

(** ** More on the metadata *)

Section MetadataMore.

Variable CONF : Config.

Lemma replace_get (a b : Ascii.ascii) (s : string) (i : nat) :
  a ≠ b → String.get i (Str.replace a b s) ≠ Some a.
Proof.
  intros Hab. revert i. induction s as [|c s IH]; intros i; cbn.
  - done.
  - destruct i as [|i]; [|apply IH].
    destruct (Ascii.eqb_spec c a) as [->|Hne]; congruence.
Qed.

Lemma replace_length (a b : Ascii.ascii) (s : string) :
  String.length (Str.replace a b s) = String.length s.
Proof. induction s as [|c s IH]; cbn; [done|by rewrite IH]. Qed.

Lemma user_metadata_of_lookup instance metadata name a :
  user_metadata_of CONF instance metadata !! name = Some a →
  ∃ prefix k v,
    prefix ∈ reserved_metadata_namespace CONF
    ∧ (k, v) ∈ i_metadata instance
    ∧ Str.startswith k prefix = true
    ∧ name = reserved_name prefix k
    ∧ (name ∉ dom metadata)
    ∧ a = reserved_value (reserved_metadata_length CONF) v.
Proof.
  unfold user_metadata_of. intros Ha.
  apply user_metadata_lookup in Ha as [(prefix & Hp & Hl)|Hacc].
  - apply reserved_md_lookup in Hl as (k & v & ? & ? & ? & ? & ?).
    by exists prefix, k, v.
  - by rewrite lookup_empty in Hacc.
Qed.

(** X14.  No key of the nested [user_metadata] contains a dot, and none is
    the name of a field of the metadata. *)
Theorem user_metadata_keys_have_no_dot instance um name :
  _get_metadata_from_object CONF instance !! "user_metadata"
  = Some (MUser um) →
  is_Some (um !! name) →
  (∀ i, String.get i name ≠ Some "."%char)
  ∧ name ∉ dom (base_metadata instance).
Proof.
  rewrite get_metadata_user_metadata. case_decide; [done|].
  intros [= <-] [a Ha].
  apply user_metadata_of_lookup in Ha
    as (prefix & k & v & _ & _ & _ & -> & Hd & _).
  split; [|done]. intros i. unfold reserved_name. by apply replace_get.
Qed.

(** X13.  Every value of the nested [user_metadata] comes from a value of
    the metadata of the instance: a value that is not a string is stored as
    it is, and a string is stored as a prefix of itself, whole when it is
    not longer than the configured length, cut to that length otherwise,
    and without its last characters when the configured length is
    negative. *)
Theorem user_metadata_values_are_prefixes instance um name a :
  let limit := reserved_metadata_length CONF in
  _get_metadata_from_object CONF instance !! "user_metadata"
  = Some (MUser um) →
  um !! name = Some a →
  ∃ k v,
    (k, v) ∈ i_metadata instance
    ∧ match v, a with
      | AStr s0, AStr s =>
          let len := Z.of_nat (String.length s0) in
          let kept := Z.of_nat (String.length s) in
          (∃ rest, s0 = String.append s rest)
          ∧ (0 ≤ limit → kept = Z.min limit len)
          ∧ (limit < 0 → kept = Z.max 0 (len + limit))
          ∧ (len ≤ limit → s = s0)
      | AInt z0, AInt z => z = z0
      | _, _ => False
      end.
Proof.
  intros limit. rewrite get_metadata_user_metadata. case_decide; [done|].
  intros [= <-] Ha.
  apply user_metadata_of_lookup in Ha
    as (prefix & k & v & _ & Hin & _ & _ & _ & ->).
  exists k, v. split; [done|]. destruct v as [s0|z0]; cbn; [|done].
  apply slice_to_is_prefix.
Qed.

End MetadataMore.

Lemma user_metadata_keys_have_no_dot_witness :
  _get_metadata_from_object default_CONF instance_with_metadata
    !! "user_metadata"
  = Some (MUser {[ "stack_id" := AStr "s-1" ]})
  ∧ String.get 5 "stack_id" ≠ Some "."%char.
Proof.
  split; [reflexivity|].
  pose proof (user_metadata_keys_have_no_dot default_CONF
                instance_with_metadata {[ "stack_id" := AStr "s-1" ]}
                "stack_id" eq_refl) as H.
  destruct H as (H & _); [by eexists|]. apply H.
Defined.

Lemma user_metadata_values_are_prefixes_witness :
  _get_metadata_from_object
    {| reserved_metadata_namespace := ["metering."];
       reserved_metadata_length := 3 |}
    instance_with_collision !! "user_metadata"
  = Some (MUser {[ "a_b" := AStr "sec"; "size" := AInt 7 ]})
  ∧ ∃ k v, (k, v) ∈ i_metadata instance_with_collision
           ∧ ∃ rest, v = AStr (String.append "sec" rest).
Proof.
  split; [reflexivity|].
  pose proof (user_metadata_values_are_prefixes
                {| reserved_metadata_namespace := ["metering."];
                   reserved_metadata_length := 3 |}
                instance_with_collision
                {[ "a_b" := AStr "sec"; "size" := AInt 7 ]} "a_b" (AStr "sec")
                eq_refl eq_refl) as (k & v & Hin & Hv).
  exists k, v. split; [exact Hin|].
  destruct v as [s0|z0]; [|destruct Hv].
  destruct Hv as ((rest & ->) & _). by exists rest.
Defined.

Section MetadataKeys.

Variable CONF : Config.

Lemma foldl_insert_notin {V} (pairs : list (string * V))
    (acc : gmap string V) k :
  k ∉ pairs.*1 →
  foldl (λ d kv, <[kv.1 := kv.2]> d) acc pairs !! k = acc !! k.
Proof.
  revert acc. induction pairs as [|[k' v'] rest IH]; intros acc Hk; cbn.
  - done.
  - cbn in Hk. apply not_elem_of_cons in Hk as [Hne Hk].
    rewrite IH by done. by apply lookup_insert_ne.
Qed.

Lemma py_dict_last {V} (before after : list (string * V)) k v :
  k ∉ after.*1 → py_dict (before ++ (k, v) :: after) !! k = Some v.
Proof.
  intros Hk. unfold py_dict. rewrite foldl_app. cbn [foldl fst snd].
  rewrite foldl_insert_notin by done. apply lookup_insert_eq.
Qed.

(** X15.  With one reserved prefix configured, a reserved key whose
    stripped name is not a field, and that no later key of the metadata
    shares its stripped name with, is stored under that name with its own
    value, cut when it is a string: among keys with the same stripped name
    the last one in the order of iteration wins. *)
Theorem last_reserved_key_wins instance prefix before k v after :
  let base := base_metadata instance in
  let name := reserved_name prefix k in
  reserved_metadata_namespace CONF = [prefix] →
  i_metadata instance = before ++ (k, v) :: after →
  Str.startswith k prefix = true →
  name ∉ dom base →
  (∀ k' v', (k', v') ∈ after → Str.startswith k' prefix = true →
            reserved_name prefix k' ≠ name) →
  ∃ um,
    _get_metadata_from_object CONF instance !! "user_metadata"
    = Some (MUser um)
    ∧ um !! name = Some (reserved_value (reserved_metadata_length CONF) v).
Proof.
  intros base name Hns Hitems Hs Hd Hafter.
  assert (user_metadata_of CONF instance base !! name
          = Some (reserved_value (reserved_metadata_length CONF) v)) as Hum.
  { unfold user_metadata_of. rewrite Hns, Hitems. cbn [foldl].
    unfold py_update. rewrite (right_id_L ∅ (∪)). unfold reserved_md.
    rewrite filter_app, filter_cons_True, fmap_app, fmap_cons.
    - apply py_dict_last. cbn [fst snd].
      intros ([n a] & Hn & ([k' v'] & [= -> ->] & Hin)%list_elem_of_fmap)
               %list_elem_of_fmap.
      cbn in Hn. apply list_elem_of_filter in Hin as [Hsel Hin].
      unfold reserved_selected in Hsel.
      apply andb_prop_elim in Hsel as [Hs' _].
      by apply (Hafter k' v' Hin (Is_true_eq_true _ Hs')).
    - unfold reserved_selected. cbn [fst]. rewrite Hs. cbn [andb].
      apply negb_prop_intro. intros Hb. apply Hd.
      by apply bool_decide_unpack in Hb. }
  exists (user_metadata_of CONF instance base). split; [|done].
  rewrite get_metadata_user_metadata. fold base.
  case_decide as He; [|done]. by rewrite He, lookup_empty in Hum.
Qed.

(** X16.  The keys of the dictionary of [_get_metadata_from_object] are the
    eight fields and the eleven instance properties, whatever the instance,
    and possibly [user_metadata], which is there exactly when some key of
    the metadata of the instance starts with a reserved prefix and has a
    stripped name that is not one of those nineteen. *)
Theorem metadata_keys instance :
  let base := base_metadata instance in
  let md := _get_metadata_from_object CONF instance in
  dom base
  = list_to_set
      ([ "display_name"; "name"; "instance_type"; "host"; "flavor"; "image";
         "image_ref"; "image_ref_url" ] ++ INSTANCE_PROPERTIES)
  ∧ (∀ key, key ∈ dom md ↔ key ∈ dom base
                            ∨ (key = "user_metadata"
                               ∧ md !! "user_metadata" ≠ None))
  ∧ (md !! "user_metadata" ≠ None
     ↔ ∃ prefix k v,
         prefix ∈ reserved_metadata_namespace CONF
         ∧ (k, v) ∈ i_metadata instance
         ∧ Str.startswith k prefix = true
         ∧ reserved_name prefix k ∉ dom base).
Proof.
  intros base md. split; [|split].
  - reflexivity.
  - intros key. subst md.
    unfold _get_metadata_from_object, _add_reserved_user_metadata.
    fold (user_metadata_of CONF instance (base_metadata instance)). fold base.
    case_decide as He.
    + split; [by left|]. intros [H|[-> H]]; [done|].
      exfalso. apply H. apply base_metadata_no_user_metadata.
    + rewrite dom_insert_L, elem_of_union, elem_of_singleton.
      rewrite lookup_insert_eq. split.
      * intros [->|H]; [by right|by left].
      * intros [H|[-> _]]; [by right|by left].
  - subst md. rewrite get_metadata_user_metadata. fold base. split.
    + case_decide as He; [done|]. intros _.
      apply map_choose in He as (name & a & Ha).
      apply user_metadata_of_lookup in Ha
        as (prefix & k & v & ? & ? & ? & -> & ? & _).
      by exists prefix, k, v.
    + intros (prefix & k & v & Hp & Hin & Hs & Hd).
      case_decide as He; [|done]. exfalso.
      assert (is_Some (user_metadata_of CONF instance base
                         !! reserved_name prefix k)) as [a Ha].
      { unfold user_metadata_of. apply user_metadata_is_Some. left.
        exists prefix. split; [done|]. by eapply reserved_md_is_Some. }
      by rewrite He, lookup_empty in Ha.
Qed.

End MetadataKeys.

Lemma last_reserved_key_wins_witness :
  reserved_name "metering." "metering.a.b"
  = reserved_name "metering." "metering.a_b"
  ∧ ∃ um,
      _get_metadata_from_object default_CONF instance_with_collision
        !! "user_metadata" = Some (MUser um)
      ∧ um !! "a_b" = Some (AStr "second").
Proof.
  split; [reflexivity|].
  apply (last_reserved_key_wins default_CONF instance_with_collision
           "metering." [("metering.a.b", AStr "first")] "metering.a_b"
           (AStr "second") [("metering.size", AInt 7)]).
  - reflexivity.
  - reflexivity.
  - reflexivity.
  - by apply not_elem_of_dom.
  - intros k' v' [[= -> ->]|[]%elem_of_nil]%elem_of_cons _. discriminate.
Defined.

Lemma metadata_keys_witness :
  _get_metadata_from_object default_CONF instance_1 !! "user_metadata" = None
  ∧ "vcpus" ∈ dom (_get_metadata_from_object default_CONF instance_1).
Proof.
  split; [reflexivity|].
  pose proof (metadata_keys default_CONF instance_1) as (Hb & Hk & _).
  apply Hk. left. rewrite Hb. apply elem_of_list_to_set.
  do 18 right. left.
Defined.

(** ** More on the network and instance pollsters *)

Section NetMore.

Variable CONF : Config.
Variable ext : Externals.

(** X17.  The metadata of a network counter are the fields of its vNIC,
    with [instance_id] set to the id of the instance and [instance_type]
    to the id of its flavor, or to [None] without a flavor, over any field
    of the vNIC of these names.  [name] is the name of the vNIC unless one
    of its other fields is called [name]. *)
Theorem net_counter_metadata instance w c :
  c ∈ yielded (NetPollster_get_counters ext instance w) →
  ∃ item,
    item ∈ produced (inspect_vnics ext (trace w) (_instance_name instance))
    ∧ c_resource_metadata c !! "instance_id" = Some (mstr (i_id instance))
    ∧ c_resource_metadata c !! "instance_type"
      = Some (opt_mvalue (λ f, mstr (flavor_id f)) (i_flavor instance))
    ∧ (∀ key, key ≠ "instance_id" → key ≠ "instance_type" →
              c_resource_metadata c !! key
              = py_dict (vnic_fields item.1) !! key)
    ∧ ("name" ∉ (vnic_attrs item.1).*1 →
       c_resource_metadata c !! "name" = Some (mstr (vnic_name item.1))).
Proof.
  rewrite NetPollster_get_counters_run. cbn [yielded].
  intros (item & name & unit & vol & ts & Hin & _ & ->)%net_counters_elem.
  exists item. split; [done|]. cbn [c_resource_metadata vnic_counter].
  split; [|split; [|split]].
  - rewrite lookup_insert_ne by done. apply lookup_insert_eq.
  - apply lookup_insert_eq.
  - intros key H1 H2. by rewrite !lookup_insert_ne.
  - intros Hn. rewrite !lookup_insert_ne by done.
    unfold vnic_fields.
    apply (py_dict_last [] (("fref", _) :: vnic_attrs item.1)).
    cbn. intros [?|?]%elem_of_cons; done.
Qed.

(** X18.  For an instance without a flavor the instance pollster yields the
    counter [instance] and then lets a [TypeError] escape; a pass over the
    instances ends there, with that error, and does not reach the
    instances that follow. *)
Theorem instance_without_flavor_raises instance w (rest : list Instance) :
  let o := InstancePollster_get_counters CONF ext instance w in
  let pass :=
    poll_instances (InstancePollster_get_counters CONF ext)
      (instance :: rest) w in
  i_flavor instance = None →
  c_name <$> yielded o = ["instance"]
  ∧ final o = Raise TypeError
  ∧ pass = o.
Proof.
  intros o pass Hf. subst o pass. cbn [poll_instances].
  unfold mbind, M_bind.
  by rewrite (InstancePollster_get_counters_run_no_flavor _ _ _ _ Hf).
Qed.

End NetMore.

Lemma net_counter_metadata_witness :
  vnet0_counter
  ∈ yielded (NetPollster_get_counters (ext_failing_for None two_vnics)
               instance_A empty_world)
  ∧ c_resource_metadata vnet0_counter !! "instance_id" = Some (mstr "i-A")
  ∧ c_resource_metadata vnet0_counter !! "name" = Some (mstr "vnet0").
Proof.
  assert (vnet0_counter
          ∈ yielded (NetPollster_get_counters (ext_failing_for None two_vnics)
                       instance_A empty_world)) as Hin by left.
  split; [exact Hin|].
  destruct (net_counter_metadata (ext_failing_for None two_vnics) instance_A
              empty_world vnet0_counter Hin) as (item & _ & Hid & _).
  split; [exact Hid|reflexivity].
Defined.

Lemma instance_without_flavor_raises_witness :
  i_flavor instance_without_flavor = None
  ∧ c_resource_id
      <$> yielded (poll_instances
                     (InstancePollster_get_counters default_CONF
                        (steady_ext cpu_4_5000 1000004))
                     [instance_without_flavor; instance_1] empty_world)
    = ["i-0"].
Proof.
  split; [reflexivity|].
  pose proof (instance_without_flavor_raises default_CONF
                (steady_ext cpu_4_5000 1000004) instance_without_flavor
                empty_world [instance_1] eq_refl) as (_ & _ & H).
  rewrite H. reflexivity.
Defined.

(** * Properties of the Gnocchi threshold evaluator *)

Section GnocchiSanitize.

Import Gnocchi.

Variable value : Type.
Variable py_eq : value → value → bool.

Lemma sanitize_app_points alarm g points rest :
  rule alarm !! "granularity" = Some g →
  _sanitize value py_eq alarm ((datapoint <$> points) ++ rest)
  = others ← _sanitize value py_eq alarm rest;
    Val ((snd <$> filter (λ p, Is_true (py_eq p.1.2 g)) points) ++ others).
Proof.
  intros Hg. induction points as [|[[t g'] v] points IH].
  - cbn. by destruct (_sanitize value py_eq alarm rest).
  - rewrite fmap_cons. cbn [app _sanitize].
    change (datapoint (t, g', v)) with [t; g'; v].
    unfold index, getitem. cbn [lookup list_lookup mbind res_bind].
    rewrite Hg. cbn [mbind res_bind]. rewrite IH, filter_cons. cbn [fst snd].
    destruct (py_eq g' g) eqn:Heq.
    + case_decide as Hd; [|by destruct Hd].
      cbn. by destruct (_sanitize value py_eq alarm rest).
    + by case_decide as Hd; [destruct Hd|].
Qed.

(** X19.  For an alarm whose rule has a granularity and statistics made of
    data points (timestamp, granularity, value), [_sanitize] returns the
    values of the data points whose granularity equals that of the rule, in
    their order: no more values than data points, and the result for two
    lists of data points one after the other is the two results one after
    the other. *)
Theorem sanitize_selects_granularity alarm g points points' :
  let selected ps := snd <$> filter (λ p, Is_true (py_eq p.1.2 g)) ps in
  rule alarm !! "granularity" = Some g →
  _sanitize value py_eq alarm (datapoint <$> points) = Val (selected points)
  ∧ (length (selected points) ≤ length points)%nat
  ∧ _sanitize value py_eq alarm (datapoint <$> (points ++ points'))
    = Val (selected points ++ selected points').
Proof.
  intros selected Hg.
  assert (∀ ps, _sanitize value py_eq alarm (datapoint <$> ps)
                = Val (selected ps)) as Hsel.
  { intros ps.
    pose proof (sanitize_app_points alarm g ps [] Hg) as H.
    rewrite !app_nil_r in H. rewrite H. cbn. by rewrite app_nil_r. }
  split; [apply Hsel|]. split.
  - unfold selected. rewrite length_fmap. apply length_filter.
  - rewrite Hsel. unfold selected. by rewrite filter_app, fmap_app.
Qed.

(** X20.  Where [_sanitize] raises.  After data points that are well
    formed, a data point with fewer than two elements raises [IndexError],
    and so does one with two elements whose granularity is that of the
    rule, while one with two elements of another granularity is skipped.
    For a rule without a granularity, statistics that start with a data
    point of at least two elements raise [KeyError], and empty statistics
    give the empty list. *)
Theorem sanitize_errors alarm points bad rest :
  (∀ g,
     rule alarm !! "granularity" = Some g →
     ((length bad < 2)%nat →
      _sanitize value py_eq alarm ((datapoint <$> points) ++ bad :: rest)
      = Exc IndexError)
     ∧ (∀ t g',
          bad = [t; g'] →
          _sanitize value py_eq alarm ((datapoint <$> points) ++ bad :: rest)
          = if py_eq g' g then Exc IndexError
            else _sanitize value py_eq alarm ((datapoint <$> points) ++ rest)))
  ∧ (rule alarm !! "granularity" = None →
     _sanitize value py_eq alarm [] = Val []
     ∧ ((2 ≤ length bad)%nat →
        _sanitize value py_eq alarm (bad :: rest)
        = Exc (KeyError "granularity"))).
Proof.
  split.
  - intros g Hg. split.
    + intros Hl. rewrite (sanitize_app_points _ _ _ _ Hg).
      destruct bad as [|t [|g' bad]]; cbn in Hl; try lia; reflexivity.
    + intros t g' ->. rewrite !(sanitize_app_points _ _ _ _ Hg).
      cbn [_sanitize]. unfold index, getitem.
      cbn [lookup list_lookup mbind res_bind]. rewrite Hg.
      cbn [mbind res_bind]. by destruct (py_eq g' g).
  - intros Hg. split; [reflexivity|]. intros Hl.
    destruct bad as [|t [|g' bad]]; cbn in Hl; try lia.
    cbn [_sanitize]. unfold index, getitem.
    cbn [lookup list_lookup mbind res_bind]. by rewrite Hg.
Qed.

End GnocchiSanitize.

Lemma sanitize_selects_granularity_witness :
  Gnocchi._sanitize string String.eqb resources_alarm
    (Gnocchi.datapoint <$> measures)
  = Gnocchi.Val ["2.0"; "3.0"].
Proof.
  pose proof (sanitize_selects_granularity string String.eqb resources_alarm
                "300" measures [] eq_refl) as (H & _).
  rewrite H. reflexivity.
Defined.

Lemma sanitize_errors_witness :
  Gnocchi._sanitize string String.eqb resources_alarm
    ((Gnocchi.datapoint <$> measures) ++ [["2015-01-01T00:10:00"]])
  = Gnocchi.Exc Gnocchi.IndexError
  ∧ Gnocchi._sanitize string String.eqb alarm_without_rule
      [["2015-01-01T00:00:00"; "300"; "2.0"]]
    = Gnocchi.Exc (Gnocchi.KeyError "granularity").
Proof.
  pose proof (sanitize_errors string String.eqb resources_alarm measures
                ["2015-01-01T00:10:00"] []) as (H1 & _).
  pose proof (sanitize_errors string String.eqb alarm_without_rule []
                ["2015-01-01T00:00:00"; "300"; "2.0"] []) as (_ & H2).
  split.
  - destruct (H1 "300" eq_refl) as (H & _). apply H. cbn. lia.
  - destruct (H2 eq_refl) as (_ & H). apply H. cbn. lia.
Defined.

Section GnocchiRequest.

Import Gnocchi.

Variable value : Type.
Variable py_str : value → string.

Lemma append_empty_r (s : string) : String.append s "" = s.
Proof.
  induction s as [|c s IH]; [done|].
  change (String c (String.append s "") = String c s). by rewrite IH.
Qed.

(** X22.  The request that [_statistics] builds.  Its parameters are
    [aggregation], from the rule, [start] and [end], and [metric[]] for an
    alarm on an aggregation by metrics only; it carries the query of the
    rule as data and is a POST for an alarm on an aggregation by resources
    only; its URL starts with the URL of Gnocchi followed by [/v1], and is
    exactly that for an alarm of none of the three types; its headers are
    the content type and the token. *)
Theorem statistics_request_shape self alarm start end_ m req :
  let by_resources :=
    alarm_type alarm = "gnocchi_aggregation_by_resources_threshold" in
  let by_metrics :=
    alarm_type alarm = "gnocchi_aggregation_by_metrics_threshold" in
  let resources := alarm_type alarm = "gnocchi_resources_threshold" in
  statistics_request value py_str self alarm start end_ = Val (m, req) →
  (m = POST ↔ by_resources)
  ∧ (data req = (if decide by_resources then rule alarm !! "query" else None))
  ∧ params req !! "aggregation" = rule alarm !! "aggregation_method"
  ∧ params req !! "start" = Some start
  ∧ params req !! "end" = Some end_
  ∧ params req !! "metric[]"
    = (if decide by_metrics then rule alarm !! "metrics" else None)
  ∧ dom (params req)
    ⊆ {[ "aggregation"; "start"; "end"; "metric[]" ]}
  ∧ (∃ suffix,
       url req
       = String.append (String.append (gnocchi_url self) "/v1") suffix
       ∧ (¬ by_resources → ¬ by_metrics → ¬ resources → suffix = ""))
  ∧ headers req
    = {[ "Content-Type" := "application/json";
         "X-Auth-Token" := auth_token self ]}.
Proof.
  intros by_resources by_metrics resources. subst by_resources by_metrics resources.
  unfold statistics_request, getitem.
  destruct (rule alarm !! "aggregation_method") as [aggregation|] eqn:Ha;
    [|done].
  cbn [mbind res_bind url headers params data].
  assert (_get_headers self "application/json"
          = {[ "Content-Type" := "application/json";
               "X-Auth-Token" := auth_token self ]}) as Hh.
  { unfold _get_headers. rewrite insert_insert_ne by done.
    by rewrite insert_empty. }
  destruct (String.eqb_spec (alarm_type alarm)
              "gnocchi_aggregation_by_resources_threshold") as [Ht|Ht].
  { destruct (rule alarm !! "resource_type") as [rt|]; [|done].
    destruct (rule alarm !! "metric") as [mt|]; [|done].
    destruct (rule alarm !! "query") as [q|] eqn:Hq; [|done].
    cbn [mbind res_bind]. intros [= <- <-]. cbn [url headers params data].
    rewrite decide_True by done. rewrite decide_False by (rewrite Ht; done).
    split; [done|]. split; [done|].
    split; [lookup_inserts|].
    split; [lookup_inserts|].
    split; [lookup_inserts|].
    split; [lookup_inserts|].
    split; [rewrite !dom_insert_L, dom_empty_L; set_solver|].
    split; [|done]. eexists. split; [reflexivity|]. done. }
  destruct (String.eqb_spec (alarm_type alarm)
              "gnocchi_aggregation_by_metrics_threshold") as [Ht2|Ht2].
  { destruct (rule alarm !! "metrics") as [ms|] eqn:Hm; [|done].
    cbn [mbind res_bind]. intros [= <- <-]. cbn [url headers params data].
    rewrite decide_False by done. rewrite decide_True by done.
    split; [done|]. split; [done|].
    split; [lookup_inserts|].
    split; [lookup_inserts|].
    split; [lookup_inserts|].
    split; [lookup_inserts|].
    split; [rewrite !dom_insert_L, dom_empty_L; set_solver|].
    split; [|done]. eexists. split; [reflexivity|]. done. }
  destruct (String.eqb_spec (alarm_type alarm) "gnocchi_resources_threshold")
    as [Ht3|Ht3].
  { destruct (rule alarm !! "resource_type") as [rt|]; [|done].
    destruct (rule alarm !! "resource_id") as [ri|]; [|done].
    destruct (rule alarm !! "metric") as [mt|]; [|done].
    cbn [mbind res_bind]. intros [= <- <-]. cbn [url headers params data].
    rewrite !decide_False by done.
    split; [done|]. split; [done|].
    split; [lookup_inserts|].
    split; [lookup_inserts|].
    split; [lookup_inserts|].
    split; [lookup_inserts|].
    split; [rewrite !dom_insert_L, dom_empty_L; set_solver|].
    split; [|done]. eexists. split; [reflexivity|]. done. }
  intros [= <- <-]. cbn [url headers params data].
  rewrite !decide_False by done.
  split; [done|]. split; [done|].
  split; [lookup_inserts|].
  split; [lookup_inserts|].
  split; [lookup_inserts|].
  split; [lookup_inserts|].
  split; [rewrite !dom_insert_L, dom_empty_L; set_solver|].
  split; [|done]. exists "". split; [|done]. by rewrite append_empty_r.
Qed.

End GnocchiRequest.

Section GnocchiStatistics.

Import Gnocchi.

Variable value : Type.
Variable py_str : value → string.
Variable requests : http_method → Request value → res Response.
Variable jsonutils_loads : string → res (list (list value)).

Lemma status_is_2xx (status : Z) :
  (status / 100 =? 2) = true ↔ 200 ≤ status < 300.
Proof.
  rewrite Z.eqb_eq. split.
  - intros H.
    pose proof (Z.mul_div_le status 100 ltac:(lia)).
    pose proof (Z.mul_succ_div_gt status 100 ltac:(lia)). lia.
  - intros H. symmetry. apply (Z.div_unique status 100 2 (status - 200)); lia.
Qed.

Lemma getitem_Exc (d : gmap string value) key e :
  getitem value d key = Exc e → e = KeyError key ∧ d !! key = None.
Proof. unfold getitem. destruct (d !! key); [done|]. by intros [= <-]. Qed.

(** X21.  Once the request is built, [_statistics] lets no failure of the
    HTTP exchange escape: it returns the empty list when the call raises
    and when the status is not between 200 and 299, and for a status
    between 200 and 299 it returns what the JSON decoder makes of the
    body, or the error of the decoder. *)
Theorem statistics_accepts_2xx self alarm start end_ m req :
  statistics_request value py_str self alarm start end_ = Val (m, req) →
  _statistics value py_str requests jsonutils_loads self alarm start end_
  = match requests m req with
    | Exc _ => Val []
    | Val r =>
        if decide (200 ≤ status_code r < 300) then jsonutils_loads (text r)
        else Val []
    end.
Proof.
  intros Hreq. unfold _statistics. rewrite Hreq. cbn [mbind res_bind fst snd].
  destruct (requests m req) as [r|e]; [|done].
  destruct (status_code r / 100 =? 2) eqn:Hs; cbn [negb].
  - apply status_is_2xx in Hs. by rewrite decide_True.
  - rewrite decide_False; [done|]. intros H%status_is_2xx. congruence.
Qed.

(** X23.  Building the request fails only on a key that the rule lacks:
    [_statistics] then raises the [KeyError] of that key, whatever the HTTP
    library would answer.  It does so for every alarm whose rule has no
    aggregation method. *)
Theorem statistics_missing_key self alarm start end_ :
  (∀ e,
     statistics_request value py_str self alarm start end_ = Exc e →
     (∃ key, e = KeyError key ∧ rule alarm !! key = None)
     ∧ _statistics value py_str requests jsonutils_loads self alarm start end_
       = Exc e)
  ∧ (rule alarm !! "aggregation_method" = None →
     _statistics value py_str requests jsonutils_loads self alarm start end_
     = Exc (KeyError "aggregation_method")).
Proof.
  split.
  - intros e He. split; [|unfold _statistics; by rewrite He].
    revert He. unfold statistics_request.
    repeat match goal with
      | |- context [getitem value ?d ?k] =>
          let H := fresh "H" in
          destruct (getitem value d k) eqn:H; cbn [mbind res_bind];
          [|apply getitem_Exc in H as [-> H]; intros [= <-];
            eexists; split; [reflexivity|exact H]]
      | |- context [String.eqb ?a ?b] => destruct (String.eqb a b)
      end; done.
  - intros Ha. unfold _statistics, statistics_request, getitem.
    by rewrite Ha.
Qed.

End GnocchiStatistics.

Lemma statistics_accepts_2xx_witness :
  Gnocchi._statistics string id (answering 204) decoding gnocchi_evaluator
    resources_alarm "2015-01-01T00:00:00" "2015-01-01T01:00:00"
  = Gnocchi.Val [["2015-01-01T00:00:00"; "300"; "2.0"]]
  ∧ Gnocchi._statistics string id (answering 404) decoding gnocchi_evaluator
      resources_alarm "2015-01-01T00:00:00" "2015-01-01T01:00:00"
    = Gnocchi.Val [].
Proof.
  split.
  - erewrite (statistics_accepts_2xx string id (answering 204) decoding);
      [|reflexivity]. reflexivity.
  - erewrite (statistics_accepts_2xx string id (answering 404) decoding);
      [|reflexivity]. reflexivity.
Defined.

Lemma statistics_request_shape_witness :
  ∃ req,
    Gnocchi.statistics_request string id gnocchi_evaluator resources_alarm
      "2015-01-01T00:00:00" "2015-01-01T01:00:00"
    = Gnocchi.Val (Gnocchi.GET, req)
    ∧ Gnocchi.url req
      = "http://localhost:8041/v1/resource/instance/i-1/metric/cpu_util/measures"
    ∧ Gnocchi.params req !! "metric[]" = None.
Proof.
  eexists. split; [reflexivity|]. split; [reflexivity|].
  pose proof (statistics_request_shape string id gnocchi_evaluator
                resources_alarm "2015-01-01T00:00:00" "2015-01-01T01:00:00"
                _ _ eq_refl) as (_ & _ & _ & _ & _ & H & _).
  rewrite H. reflexivity.
Defined.

Lemma statistics_missing_key_witness :
  Gnocchi._statistics string id (answering 200) decoding gnocchi_evaluator
    alarm_without_rule "2015-01-01T00:00:00" "2015-01-01T01:00:00"
  = Gnocchi.Exc (Gnocchi.KeyError "aggregation_method").
Proof.
  pose proof (statistics_missing_key string id (answering 200) decoding
                gnocchi_evaluator alarm_without_rule
                "2015-01-01T00:00:00" "2015-01-01T01:00:00") as (_ & H).
  apply H. reflexivity.
Defined.
